(** * grafanatesting.grafanaapi: a shallow embedding of [GrafanaApi]

    The Python class [GrafanaApi] (grafanaapi.py) is a thin client of the
    Grafana dashboard REST API.  This development embeds

    - the [str] methods the class relies on ([split], [rsplit], [replace],
      [startswith], [in]);
    - the Python objects produced by [response.json()], with the failures
      ([KeyError], [TypeError], ...) of the operations applied to them;
    - the five methods of the class, as computations in a small monad that
      records the HTTP GETs issued and the outcomes of [pytest.check];

    and states the properties of the class as theorems about the embedding.

    Numbers are the integers: float literals of a JSON document are outside
    the model.  Characters are those of [Ascii.ascii]. *)

From Stdlib Require Import Ascii String List ZArith Bool Arith Lia.
Import ListNotations.
Open Scope string_scope.
Open Scope list_scope.

Set Warnings "-notation-for-abbreviation,-register-all".

(** Python strings are lists of characters; literals are written as Rocq
    strings and read through the coercion below. *)
Definition str := list ascii.

Definition lit (s : string) : str := list_ascii_of_string s.
Coercion lit : string >-> str.

Definition ascii_eqb (a b : ascii) : bool := Ascii.eqb a b.

(** * Python string methods *)
Module PyStr.

(** [s.startswith(p)] *)
Fixpoint startswith (p s : str) : bool :=
  match p, s with
  | [], _ => true
  | _ :: _, [] => false
  | a :: p', b :: s' => ascii_eqb a b && startswith p' s'
  end.

(** [s.find(sep)], returned as the text before and after the first
    occurrence of [sep]. *)
Fixpoint find_split (sep s : str) : option (str * str) :=
  if startswith sep s then Some ([], skipn (length sep) s)
  else match s with
       | [] => None
       | c :: s' =>
           match find_split sep s' with
           | Some (a, b) => Some (c :: a, b)
           | None => None
           end
       end.

(** [s.rfind(sep)], returned as the text before and after the last
    occurrence of [sep]. *)
Fixpoint rfind_split (sep s : str) : option (str * str) :=
  match s with
  | [] => if startswith sep [] then Some ([], []) else None
  | c :: s' =>
      match rfind_split sep s' with
      | Some (a, b) => Some (c :: a, b)
      | None => if startswith sep s then Some ([], skipn (length sep) s)
                else None
      end
  end.

(** [sub in s] *)
Definition contains (sub s : str) : bool :=
  match find_split sub s with Some _ => true | None => false end.

(** [s.split(sep)] for a non-empty [sep]: cut at each occurrence found
    scanning from the left, resuming after the separator.  Every cut
    consumes a character, so [length s] rounds are enough. *)
Fixpoint split_fuel (fuel : nat) (sep s : str) : list str :=
  match fuel with
  | O => [s]
  | S fuel' =>
      match find_split sep s with
      | None => [s]
      | Some (a, b) => a :: split_fuel fuel' sep b
      end
  end.

Definition split (sep s : str) : list str := split_fuel (length s) sep s.

(** [s.split(sep, 1)] *)
Definition split1 (sep s : str) : list str :=
  match find_split sep s with
  | None => [s]
  | Some (a, b) => [a; b]
  end.

(** [s.rsplit(sep, 1)] *)
Definition rsplit1 (sep s : str) : list str :=
  match rfind_split sep s with
  | None => [s]
  | Some (a, b) => [a; b]
  end.

(** [s.replace(old, new)] for a non-empty [old]: the occurrences found
    scanning from the left, resuming after each one, are replaced. *)
Fixpoint replace_fuel (fuel : nat) (old new s : str) : str :=
  match fuel with
  | O => s
  | S fuel' =>
      match find_split old s with
      | None => s
      | Some (a, b) => a ++ new ++ replace_fuel fuel' old new b
      end
  end.

Definition replace (old new s : str) : str :=
  replace_fuel (length s) old new s.

(** ** Cutting at one character *)

(** The text after the first [c], when there is one. *)
Fixpoint after_char (c : ascii) (s : str) : option str :=
  match s with
  | [] => None
  | x :: s' => if ascii_eqb x c then Some s' else after_char c s'
  end.

(** The text before the first [c], the whole string when there is none. *)
Fixpoint before_char (c : ascii) (s : str) : str :=
  match s with
  | [] => []
  | x :: s' => if ascii_eqb x c then [] else x :: before_char c s'
  end.

End PyStr.

(** * Python objects *)

(** The hashable objects a JSON document yields: [None], booleans, integers
    and strings.  They are the keys of dictionaries. *)
Inductive atom : Type :=
| ANone
| ABool (b : bool)
| AInt (n : Z)
| AStr (s : str).

(** The objects [response.json()] yields, and those a caller may pass as
    [structure]: atoms, lists, and dictionaries in insertion order. *)
Inductive value : Type :=
| VAtom (a : atom)
| VList (l : list value)
| VDict (d : list (atom * value)).

Notation VNone := (VAtom ANone).
Notation VStr s := (VAtom (AStr s)).
Notation VInt n := (VAtom (AInt n)).
Notation VBool b := (VAtom (ABool b)).

(** The exceptions the class can raise. *)
Inductive exn : Type :=
| AssertionError
| KeyError (key : atom)
| TypeError
| IndexError
| AttributeError
| ValueError
| RequestException.

Inductive result (A : Type) : Type :=
| Ok (a : A)
| Err (e : exn).
Arguments Ok {A} a.
Arguments Err {A} e.

Definition rbind {A B} (r : result A) (k : A -> result B) : result B :=
  match r with
  | Ok a => k a
  | Err e => Err e
  end.

Declare Scope result_scope.
Delimit Scope result_scope with result.
Notation "x <- r ;; k" := (rbind r (fun x => k))
  (at level 61, r at next level, right associativity) : result_scope.

(** [for x in l: out.append(f(x))], ended by the first failure. *)
Fixpoint mapM {A B} (f : A -> result B) (l : list A) : result (list B) :=
  match l with
  | [] => Ok []
  | x :: l' => (y <- f x ;; r <- mapM f l' ;; Ok (y :: r))%result
  end.

Module Py.

Fixpoint str_eqb (s t : str) : bool :=
  match s, t with
  | [], [] => true
  | a :: s', b :: t' => ascii_eqb a b && str_eqb s' t'
  | _, _ => false
  end.

(** [bool] is a subclass of [int]: [True == 1]. *)
Definition atom_eqb (a b : atom) : bool :=
  match a, b with
  | ANone, ANone => true
  | AStr s, AStr t => str_eqb s t
  | ABool x, ABool y => Bool.eqb x y
  | AInt x, AInt y => Z.eqb x y
  | ABool x, AInt y => Z.eqb (Z.b2z x) y
  | AInt x, ABool y => Z.eqb x (Z.b2z y)
  | _, _ => false
  end.

(** [d.get(k)] on the items of a dictionary. *)
Fixpoint lookup (k : atom) (d : list (atom * value)) : option value :=
  match d with
  | [] => None
  | (k', v) :: d' => if atom_eqb k k' then Some v else lookup k d'
  end.

(** [a == b] *)
Fixpoint eq (a b : value) {struct a} : bool :=
  match a, b with
  | VAtom x, VAtom y => atom_eqb x y
  | VList l, VList m =>
      (fix go (l m : list value) : bool :=
         match l, m with
         | [], [] => true
         | x :: l', y :: m' => eq x y && go l' m'
         | _, _ => false
         end) l m
  | VDict d, VDict e =>
      Nat.eqb (length d) (length e) &&
      (fix go (d : list (atom * value)) : bool :=
         match d with
         | [] => true
         | (k, v) :: d' =>
             match lookup k e with
             | Some w => eq v w
             | None => false
             end && go d'
         end) d
  | _, _ => false
  end.

(** [bool(v)] *)
Definition truthy (v : value) : bool :=
  match v with
  | VAtom ANone => false
  | VAtom (ABool b) => b
  | VAtom (AInt n) => negb (Z.eqb n 0)
  | VAtom (AStr s) => negb (Nat.eqb (length s) 0)
  | VList l => negb (Nat.eqb (length l) 0)
  | VDict d => negb (Nat.eqb (length d) 0)
  end.

(** [len(v)] *)
Definition len (v : value) : result nat :=
  match v with
  | VAtom (AStr s) => Ok (length s)
  | VList l => Ok (length l)
  | VDict d => Ok (length d)
  | _ => Err TypeError
  end.

(** [v[k]] for a string [k] *)
Definition getitem (v : value) (k : str) : result value :=
  match v with
  | VDict d =>
      match lookup (AStr k) d with
      | Some w => Ok w
      | None => Err (KeyError (AStr k))
      end
  | _ => Err TypeError
  end.

(** [for x in v] *)
Definition iter (v : value) : result (list value) :=
  match v with
  | VList l => Ok l
  | VDict d => Ok (map (fun kv => VAtom (fst kv)) d)
  | VAtom (AStr s) => Ok (map (fun c => VStr [c]) s)
  | _ => Err TypeError
  end.

(** [k in v] for a string [k] *)
Definition contains (k : str) (v : value) : result bool :=
  match v with
  | VDict d => Ok (existsb (fun kv => atom_eqb (AStr k) (fst kv)) d)
  | VList l => Ok (existsb (eq (VStr k)) l)
  | VAtom (AStr s) => Ok (PyStr.contains k s)
  | _ => Err TypeError
  end.

(** [v.get(k)] *)
Definition get (v : value) (k : str) : result value :=
  match v with
  | VDict d =>
      match lookup (AStr k) d with
      | Some w => Ok w
      | None => Ok VNone
      end
  | _ => Err AttributeError
  end.

(** The receiver of a [str] method: any other object lacks the method. *)
Definition str_method (v : value) : result str :=
  match v with
  | VAtom (AStr s) => Ok s
  | _ => Err AttributeError
  end.

(** [v.keys()] *)
Definition keys (v : value) : result (list atom) :=
  match v with
  | VDict d => Ok (map fst d)
  | _ => Err AttributeError
  end.

(** [d[k] = v]: an existing key keeps its position. *)
Fixpoint setitem (k : atom) (v : value) (d : list (atom * value))
  : list (atom * value) :=
  match d with
  | [] => [(k, v)]
  | (k', v') :: d' =>
      if atom_eqb k k' then (k', v) :: d' else (k', v') :: setitem k v d'
  end.

(** The key of [d[v]]: lists and dictionaries are unhashable. *)
Definition hashable (v : value) : result atom :=
  match v with
  | VAtom a => Ok a
  | _ => Err TypeError
  end.

(** [sorted(keys)] compares the keys pairwise: strings with strings,
    integers and booleans with each other, [None] with nothing. *)
Definition is_str_key (a : atom) : bool :=
  match a with AStr _ => true | _ => false end.

Definition is_num_key (a : atom) : bool :=
  match a with ABool _ | AInt _ => true | _ => false end.

Definition sortable (ks : list atom) : bool :=
  match ks with
  | [] | [_] => true
  | _ => forallb is_str_key ks || forallb is_num_key ks
  end.

(** Whether [json.dumps(v, sort_keys=True)] returns: it raises a
    [TypeError] when the keys of some dictionary cannot be sorted. *)
Fixpoint dumps_ok (v : value) : bool :=
  match v with
  | VAtom _ => true
  | VList l => forallb dumps_ok l
  | VDict d =>
      sortable (map fst d) &&
      (fix go (d : list (atom * value)) : bool :=
         match d with
         | [] => true
         | (_, w) :: d' => dumps_ok w && go d'
         end) d
  end.

End Py.

(** * The session: HTTP GETs issued and checks recorded *)

(** What [requests.get] returns: [body] is the document [response.json()]
    parses, [None] when the payload is not JSON. *)
Record response : Type := {
  status_code : Z;
  body : option value
}.

(** [response.json()] *)
Definition response_json (r : response) : result value :=
  match body r with
  | Some v => Ok v
  | None => Err ValueError
  end.

(** The observable effects of a call: the URLs requested with
    [requests.get], oldest first, and the outcomes of [pytest.check] with
    their messages, oldest first. *)
Record session : Type := {
  gets : list str;
  checks : list (bool * str)
}.

Definition M (A : Type) : Type := session -> result A * session.

Definition ret {A} (a : A) : M A := fun st => (Ok a, st).

Definition bind {A B} (m : M A) (k : A -> M B) : M B :=
  fun st =>
    match m st with
    | (Ok a, st') => k a st'
    | (Err e, st') => (Err e, st')
    end.

Definition lift {A} (r : result A) : M A := fun st => (r, st).

Declare Scope m_scope.
Delimit Scope m_scope with M.
Notation "x <- m ;; k" := (bind m (fun x => k))
  (at level 61, m at next level, right associativity) : m_scope.

(** Modelled from the spec: [pytest.check], which the test framework
    provides outside this file.  The class uses it as a check that passes
    or not, next to plain [assert]s: it is taken to record the outcome
    with its message and to return. *)
Definition pytest_check (c : bool) (msg : str) : M unit :=
  fun st => (Ok tt, {| gets := gets st; checks := checks st ++ [(c, msg)] |}).

Definition session0 : session := {| gets := []; checks := [] |}.

(** * The class [GrafanaApi] *)

(** A comprehension [[e(x) for x in l if c(x)]]: for each element the
    condition is evaluated, then the expression when it holds. *)
Fixpoint comprehension {A B} (c : A -> result bool) (e : A -> result B)
  (l : list A) : result (list B) :=
  match l with
  | [] => Ok []
  | x :: l' =>
      (b <- c x ;;
       if b then y <- e x ;; r <- comprehension c e l' ;; Ok (y :: r)
       else comprehension c e l')%result
  end.

(** [l[i]] on a list *)
Definition index {A} (l : list A) (i : nat) : result A :=
  match nth_error l i with
  | Some x => Ok x
  | None => Err IndexError
  end.

(** [for x in l: st = body(x, st)] *)
Fixpoint foldM {A S} (body : A -> S -> result S) (l : list A) (st : S)
  : result S :=
  match l with
  | [] => Ok st
  | x :: l' => (st' <- body x st ;; foldM body l' st')%result
  end.

Module GrafanaApi.

(** ** The second loop of [get_panel_chart_targets] *)

(** [t.rsplit("(", 1)[1]], keeping [t] when there is no ["("], then
    [t.split(")", 1)[0]]. *)
Definition strip_call (t : str) : str :=
  let t := match index (PyStr.rsplit1 "(" t) 1 with
           | Ok t' => t'
           | Err _ => t
           end in
  nth 0 (PyStr.split1 ")" t) [].

(** [t, target_options = t.rsplit(".{", 1)], with [target_options = None]
    when the unpacking fails. *)
Definition split_options (t : str) : str * option str :=
  match PyStr.rsplit1 ".{" t with
  | [t'; target_options] => (t', Some target_options)
  | _ => (t, None)
  end.

(** ["{}.{}".format(t, x.split("}", 1)[0])] *)
Definition construct_target (t x : str) : str :=
  t ++ lit "." ++ nth 0 (PyStr.split1 "}" x) [].

(** The body of [for t in targets_split]: what one piece adds to
    [target_output]. *)
Definition piece_output (t : str) : list str :=
  let t := strip_call t in
  let '(t, target_options) := split_options t in
  match target_options with
  | Some (c :: o) =>
      map (construct_target t) (PyStr.split "," (c :: o))
  | _ =>
      if PyStr.startswith "tendrl." t then [t] else []
  end.

Definition target_output (targets_split : list str) : list str :=
  flat_map piece_output targets_split.

(** [if tok in target: target = target.replace(tok, new)] *)
Definition substitute (tok new : str) (target : value) : result value :=
  (b <- Py.contains tok target ;;
   if b then s <- Py.str_method target ;; Ok (VStr (PyStr.replace tok new s))
   else Ok target)%result.

(** The body of [for target in targets]. *)
Definition target_queries (host_name cluster_identifier volume_name : str)
  (target : value) : result (list str) :=
  (target <- substitute "$cluster_id" cluster_identifier target ;;
   target <- substitute "$volume_name" volume_name target ;;
   target <- substitute "$host_name" (PyStr.replace "." "_" host_name) target ;;
   s <- Py.str_method target ;;
   let targets_split := PyStr.split ", " s in
   Ok (target_output targets_split))%result.

(** ** The first loop of [get_panel_chart_targets] *)

(** ["hide" not in target or not target["hide"]] *)
Definition shown (target : value) : result bool :=
  (b <- Py.contains "hide" target ;;
   if negb b then Ok true
   else h <- Py.getitem target "hide" ;; Ok (negb (Py.truthy h)))%result.

(** [target["targetFull"] if target.get("targetFull") else target["target"]] *)
Definition template (target : value) : result value :=
  (f <- Py.get target "targetFull" ;;
   if Py.truthy f then Py.getitem target "targetFull"
   else Py.getitem target "target")%result.

(** [get_panel_chart_targets(panel, host_name, cluster_identifier,
    volume_name)] without its session: the method issues no request and
    records no check. *)
Definition chart_targets (panel : value)
  (host_name cluster_identifier volume_name : str)
  : result (list (list str)) :=
  (ts <- Py.getitem panel "targets" ;;
   ts <- Py.iter ts ;;
   targets <- comprehension shown template ts ;;
   output <- mapM (target_queries host_name cluster_identifier volume_name)
                  targets ;;
   (* the arguments of LOGGER.debug are evaluated *)
   _ <- Py.getitem panel "title" ;;
   Ok output)%result.

(** ** The loops of [compare_structure] *)

(** [structure_grafana[k].append(x)] *)
Definition append_to (k : atom) (x : value) (sg : list (atom * value))
  : result (list (atom * value)) :=
  match Py.lookup k sg with
  | Some (VList l) => Ok (Py.setitem k (VList (l ++ [x])) sg)
  | Some _ => Err AttributeError
  | None => Err (KeyError k)
  end.

(** The body of [for panel in row["panels"]]. *)
Definition add_panel (row panel : value) (sg : list (atom * value))
  : result (list (atom * value)) :=
  (title <- Py.getitem panel "title" ;;
   if Py.truthy title then
     k <- Py.getitem row "title" ;; k <- Py.hashable k ;;
     x <- Py.getitem panel "title" ;;
     append_to k x sg
   else
     ks <- Py.keys panel ;;
     if existsb (Py.atom_eqb (AStr "displayName")) ks then
       name <- Py.getitem panel "displayName" ;;
       if Py.truthy name then
         k <- Py.getitem row "title" ;; k <- Py.hashable k ;;
         x <- Py.getitem panel "displayName" ;;
         append_to k x sg
       else Ok sg
     else Ok sg)%result.

(** The body of [for row in layout["dashboard"]["rows"]]. *)
Definition add_row (row : value) (sg : list (atom * value))
  : result (list (atom * value)) :=
  (k <- Py.getitem row "title" ;; k <- Py.hashable k ;;
   let sg := Py.setitem k (VList []) sg in
   panels <- Py.getitem row "panels" ;;
   panels <- Py.iter panels ;;
   foldM (add_panel row) panels sg)%result.

Definition structure_grafana (rows : list value)
  : result (list (atom * value)) :=
  foldM add_row rows [].

(** ** The filters of [get_panel] *)

(** ["title" in x and x["title"] == title] *)
Definition title_is (title : str) (x : value) : result bool :=
  (b <- Py.contains "title" x ;;
   if b then t <- Py.getitem x "title" ;; Ok (Py.eq t (VStr title))
   else Ok false)%result.

(** ["title" in panel and panel["title"] == panel_title and
     panel["type"] == panel_type] *)
Definition title_type_is (title type : str) (panel : value) : result bool :=
  (b <- title_is title panel ;;
   if b then t <- Py.getitem panel "type" ;; Ok (Py.eq t (VStr type))
   else Ok false)%result.

(** [if panel_type:] for the default [None] or a string *)
Definition given (panel_type : option str) : option str :=
  match panel_type with
  | Some (c :: t) => Some (c :: t)
  | _ => None
  end.

(** The two branches of [if panel_type:]. *)
Definition found_panels (panel_title : str) (panel_type : option str)
  (l : list value) : result (list value) :=
  match given panel_type with
  | Some type => comprehension (title_type_is panel_title type) Ok l
  | None => comprehension (title_is panel_title) Ok l
  end.

(** [assert c] *)
Definition rassert (c : bool) : result unit :=
  if c then Ok tt else Err AssertionError.

(** [get_panel] from its second statement on, [layout] being what
    [get_dashboard] returned. *)
Definition find_panel (layout : value) (panel_title row_title : str)
  (panel_type : option str) : result value :=
  (n <- Py.len layout ;;
   _ <- rassert (Nat.ltb 0 n) ;;
   d <- Py.getitem layout "dashboard" ;;
   dashboard_rows <- Py.getitem d "rows" ;;
   l <- Py.iter dashboard_rows ;;
   found_rows <- comprehension (title_is row_title) Ok l ;;
   _ <- rassert (Nat.eqb (length found_rows) 1) ;;
   r <- index found_rows 0 ;;
   panels <- Py.getitem r "panels" ;;
   l <- Py.iter panels ;;
   found <- found_panels panel_title panel_type l ;;
   _ <- rassert (Nat.eqb (length found) 1) ;;
   index found 0)%result.

Section Methods.

(** [self.server] *)
Variable server : str.

(** The Grafana server behind [requests.get]: the response to a GET of a
    URL, or the exception the request ends with. *)
Variable http : str -> result response.

(** [ApiBase.check_response], defined in [grafanatesting.base]: it may
    record checks and may raise. *)
Variable check_response :
  response -> list (bool * str) -> result unit * list (bool * str).

(** [requests.get(url)] *)
Definition requests_get (url : str) : M response :=
  fun st => (http url, {| gets := gets st ++ [url]; checks := checks st |}).

(** [self.check_response(response)] *)
Definition self_check_response (r : response) : M unit :=
  fun st =>
    let '(res, cs) := check_response r (checks st) in
    (res, {| gets := gets st; checks := cs |}).

Definition get_dashboards : M (list str) :=
  (let pattern : str := "search" in
   response <- requests_get (server ++ pattern) ;;
   _ <- self_check_response response ;;
   j <- lift (response_json response) ;;
   lift (l <- Py.iter j ;;
         comprehension
           (fun dashboard =>
              t <- Py.getitem dashboard "type" ;; Ok (Py.eq t (VStr "dash-db")))
           (fun dashboard =>
              u <- Py.getitem dashboard "uri" ;;
              u <- Py.str_method u ;;
              index (PyStr.split "/" u) 1)
           l)%result)%M.

Definition get_dashboard (slug : str) : M value :=
  (let pattern : str := lit "dashboards/db/" ++ slug in
   response <- requests_get (server ++ pattern) ;;
   _ <- self_check_response response ;;
   lift (response_json response))%M.

Definition get_panel (panel_title row_title dashboard : str)
  (panel_type : option str) : M value :=
  (layout <- get_dashboard dashboard ;;
   lift (find_panel layout panel_title row_title panel_type))%M.

Definition get_panel_chart_targets (panel : value)
  (host_name cluster_identifier volume_name : str) : M (list (list str)) :=
  lift (chart_targets panel host_name cluster_identifier volume_name).

Definition compare_structure (structure : value) (slug : str) : M unit :=
  (layout <- get_dashboard slug ;;
   n <- lift (Py.len layout) ;;
   _ <- pytest_check (Nat.ltb 0 n) (slug ++ lit " dashboard should not be empty") ;;
   rows <-
     lift (d <- Py.getitem layout "dashboard" ;;
           r <- Py.getitem d "rows" ;; Py.iter r)%result ;;
   sg <- lift (structure_grafana rows) ;;
   (* the arguments of LOGGER.debug are evaluated: json.dumps of both *)
   _ <- lift (if Py.dumps_ok structure then
                if Py.dumps_ok (VDict sg) then Ok tt else Err TypeError
              else Err TypeError) ;;
   pytest_check (Py.eq structure (VDict sg))
     (lit "defined structure of panels should " ++
      lit "be equal to structure in grafana"))%M.

End Methods.

End GrafanaApi.

(** * Specification vocabulary

    The functions below do not come from the class: they phrase what the
    methods are expected to compute, and the theorems relate the two. *)
Module Spec.

(** *** Placeholders *)

Definition cluster_pass (cluster_identifier t : str) : str :=
  PyStr.replace "$cluster_id" cluster_identifier t.

Definition volume_pass (volume_name t : str) : str :=
  PyStr.replace "$volume_name" volume_name t.

Definition host_pass (host_name t : str) : str :=
  PyStr.replace "$host_name" (PyStr.replace "." "_" host_name) t.


(** The queries one substituted template yields. *)
Definition queries (host_name cluster_identifier volume_name t : str)
  : list str :=
  GrafanaApi.target_output
    (PyStr.split ", "
       (host_pass host_name
          (volume_pass volume_name (cluster_pass cluster_identifier t)))).

(** *** Targets of a panel *)

(** A target is hidden when it has a truthy ["hide"]. *)
Definition hidden (target : list (atom * value)) : bool :=
  match Py.lookup (AStr "hide") target with
  | Some h => Py.truthy h
  | None => false
  end.

(** The template of a target: its truthy ["targetFull"], else its
    ["target"]. *)
Definition template_of (target : list (atom * value)) : option value :=
  match Py.lookup (AStr "targetFull") target with
  | Some f => if Py.truthy f then Some f else Py.lookup (AStr "target") target
  | None => Py.lookup (AStr "target") target
  end.

Definition template_str (target : list (atom * value)) : str :=
  match template_of target with
  | Some (VStr s) => s
  | _ => []
  end.

(** *** Requests *)

(** A computation that issues exactly one GET, to [url]. *)
Definition one_get {A} (url : str) (m : M A) : Prop :=
  forall st, gets (snd (m st)) = gets st ++ [url].

(** A computation that issues no GET. *)
Definition no_get {A} (m : M A) : Prop :=
  forall st, gets (snd (m st)) = gets st.

(** *** Search hits *)

Definition is_dict (x : value) : Prop := exists d, x = VDict d.

Definition field (k : str) (x : value) : option value :=
  match x with
  | VDict d => Py.lookup (AStr k) d
  | _ => None
  end.

(** The hit is a dashboard: its ["type"] is ["dash-db"]. *)
Definition is_dash_db (hit : value) : bool :=
  match field "type" hit with
  | Some t => Py.eq t (VStr "dash-db")
  | None => false
  end.

Definition uri (hit : value) : option str :=
  match field "uri" hit with
  | Some (VStr u) => Some u
  | _ => None
  end.

(** The segment of the ["uri"] after its first ["/"]. *)
Definition slug (hit : value) : str :=
  match uri hit with
  | Some u =>
      match PyStr.after_char "/" u with
      | Some r => PyStr.before_char "/" r
      | None => []
      end
  | None => []
  end.

(** What the search endpoint returns for a hit: an object with a
    ["type"], and for a dashboard a ["uri"] string made of segments. *)
Definition search_hit (hit : value) : Prop :=
  (exists t, field "type" hit = Some t) /\
  (is_dash_db hit = true ->
   exists u r, uri hit = Some u /\ PyStr.after_char "/" u = Some r).

(** *** Rows and panels of a layout *)

(** The object has a ["title"] equal to [title]. *)
Definition has_title (title : str) (x : value) : bool :=
  match field "title" x with
  | Some t => Py.eq t (VStr title)
  | None => false
  end.

Definition has_type (type : str) (x : value) : bool :=
  match field "type" x with
  | Some t => Py.eq t (VStr type)
  | None => false
  end.

(** The panel [get_panel] looks for: the title, and the type when a
    non-empty [panel_type] is given. *)
Definition panel_matches (title : str) (panel_type : option str)
  (x : value) : bool :=
  has_title title x &&
  match GrafanaApi.given panel_type with
  | Some type => has_type type x
  | None => true
  end.

(** [layout["dashboard"]["rows"]] of a layout whose rows are a list. *)
Definition rows_of (layout : value) : option (list value) :=
  match field "dashboard" layout with
  | Some d =>
      match field "rows" d with
      | Some (VList rows) => Some rows
      | _ => None
      end
  | None => None
  end.

(** [row["panels"]] of a row whose panels are a list. *)
Definition panels_of (row : value) : option (list value) :=
  match field "panels" row with
  | Some (VList panels) => Some panels
  | _ => None
  end.

(** A panel object that has a ["type"] whenever [get_panel] filters on
    the type. *)
Definition typed (panel_type : option str) (x : value) : Prop :=
  is_dict x /\
  (GrafanaApi.given panel_type = None \/ exists t, field "type" x = Some t).

(** The rows [get_panel] iterates over: [layout["dashboard"]["rows"]]. *)
Definition layout_rows (layout : value) : result (list value) :=
  (d <- Py.getitem layout "dashboard" ;;
   r <- Py.getitem d "rows" ;;
   Py.iter r)%result.

(** The panels [get_panel] iterates over: [row["panels"]]. *)
Definition row_panels (row : value) : result (list value) :=
  (p <- Py.getitem row "panels" ;; Py.iter p)%result.

(** *** The structure of a dashboard *)

(** A parsed JSON document: the keys of its objects are strings. *)
Fixpoint is_json (v : value) : bool :=
  match v with
  | VAtom _ => true
  | VList l => forallb is_json l
  | VDict d =>
      (fix go (d : list (atom * value)) : bool :=
         match d with
         | [] => true
         | (k, w) :: d' => Py.is_str_key k && is_json w && go d'
         end) d
  end.

(** The name a panel is listed under: its truthy ["title"], else its
    truthy ["displayName"]; a panel with neither is not listed. *)
Definition panel_name (panel : value) : option value :=
  match field "title" panel with
  | Some t =>
      if Py.truthy t then Some t
      else match field "displayName" panel with
           | Some n => if Py.truthy n then Some n else None
           | None => None
           end
  | None => None
  end.

Definition names (panels : list value) : list value :=
  flat_map (fun p => match panel_name p with
                     | Some x => [x]
                     | None => []
                     end) panels.

Definition row_title (row : value) : str :=
  match field "title" row with
  | Some (VStr t) => t
  | _ => []
  end.

Definition row_names (row : value) : list value :=
  match panels_of row with
  | Some panels => names panels
  | None => []
  end.

(** The mapping from row titles to the names of the row's panels; a row
    replaces an earlier row of the same title. *)
Definition expected (rows : list value) : list (atom * value) :=
  fold_left
    (fun sg row => Py.setitem (AStr (row_title row)) (VList (row_names row)) sg)
    rows [].

(** A row with a string title whose panels are a list of objects that
    all have a ["title"] key. *)
Definition titled_row (row : value) : Prop :=
  (exists t, field "title" row = Some (VStr t)) /\
  (exists panels,
     panels_of row = Some panels /\
     Forall (fun p => exists t, field "title" p = Some t) panels).

Definition equality_message : str :=
  lit "defined structure of panels should be equal to structure in grafana".

(** The outcome of a call of [compare_structure] in which the equality
    check, the last check of the method, was reached and passed. *)
Definition equality_check_passed (out : result unit * session) : Prop :=
  fst out = Ok tt /\
  exists cs, checks (snd out) = cs ++ [(true, equality_message)].

(** *** Pieces of a target *)

(** The text after the last [c], when there is one. *)
Fixpoint after_last (c : ascii) (s : str) : option str :=
  match s with
  | [] => None
  | x :: s' =>
      match after_last c s' with
      | Some r => Some r
      | None => if ascii_eqb x c then Some s' else None
      end
  end.

(** The text between the last opening parenthesis (the start of the
    piece when there is none) and the next closing one (the end when there
    is none). *)
Definition call_argument (t : str) : str :=
  PyStr.before_char ")"
    (match after_last "(" t with
     | Some r => r
     | None => t
     end).

(** The parts written one after the other with [sep] in between. *)
Fixpoint joined (sep : str) (parts : list str) : str :=
  match parts with
  | [] => []
  | [p] => p
  | p :: rest => p ++ sep ++ joined sep rest
  end.

(** None of the characters [cs] occurs in [s]. *)
Definition free (cs : list ascii) (s : str) : Prop :=
  forall c, In c cs -> ~ In c s.

(** The exception a template that is not a string ends the second loop
    of [get_panel_chart_targets] with. *)
Definition template_error (x : value) : exn :=
  match x with
  | VAtom _ => TypeError
  | _ => AttributeError
  end.

(** The template of a target that has one. *)
Definition template_value (target : list (atom * value)) : value :=
  match template_of target with
  | Some x => x
  | None => VNone
  end.

(** The object is not a string. *)
Definition not_str (x : value) : Prop := forall s, x <> VStr s.

(** *** Templates with placeholders *)









End Spec.

(** * Sample documents *)
Module Sample.

(** A panel with three targets, the second one hidden. *)
Definition cpu_panel : value :=
  VDict [(AStr "title", VStr "CPU");
         (AStr "targets",
          VList [VDict [(AStr "target", VStr "tendrl.$host_name.cpu.{user,system}")];
                 VDict [(AStr "target", VStr "tendrl.idle");
                        (AStr "hide", VBool true)];
                 VDict [(AStr "target", VStr "alias(#A, 'a')");
                        (AStr "targetFull",
                         VStr "alias(tendrl.$cluster_id.cpu, 'a')");
                        (AStr "hide", VBool false)]])].


(** A dashboard of two rows.  The text panel of the first row has no
    ["type"]. *)
Definition header_row : value :=
  VDict [(AStr "title", VStr "Header");
         (AStr "panels",
          VList [VDict [(AStr "title", VStr "Health");
                        (AStr "type", VStr "singlestat")];
                 VDict [(AStr "title", VStr "");
                        (AStr "displayName", VStr "Uptime");
                        (AStr "type", VStr "singlestat")];
                 VDict [(AStr "title", VStr "Notes")]])].

Definition utilization_row : value :=
  VDict [(AStr "title", VStr "Utilization");
         (AStr "panels",
          VList [VDict [(AStr "title", VStr "CPU");
                        (AStr "type", VStr "graph")];
                 VDict [(AStr "title", VStr "CPU");
                        (AStr "type", VStr "singlestat")]])].

Definition cluster_layout : value :=
  VDict [(AStr "meta", VDict [(AStr "slug", VStr "cluster")]);
         (AStr "dashboard",
          VDict [(AStr "title", VStr "Cluster");
                 (AStr "rows", VList [header_row; utilization_row])])].

(** A dashboard in which two rows carry the same title. *)
Definition twin_layout : value :=
  VDict [(AStr "dashboard",
          VDict [(AStr "rows",
                  VList [VDict [(AStr "title", VStr "Row");
                                (AStr "panels",
                                 VList [VDict [(AStr "title", VStr "Bricks")]])];
                         VDict [(AStr "title", VStr "Row");
                                (AStr "panels", VList [])]])])].

(** The answer of Grafana for a dashboard it does not have. *)
Definition not_found : value :=
  VDict [(AStr "message", VStr "Dashboard not found")].

Definition hits : value :=
  VList [VDict [(AStr "id", VInt 1); (AStr "type", VStr "dash-folder");
                (AStr "uri", VStr "general")];
         VDict [(AStr "id", VInt 2); (AStr "type", VStr "dash-db");
                (AStr "uri", VStr "db/cluster")];
         VDict [(AStr "id", VInt 3); (AStr "type", VStr "dash-db");
                (AStr "uri", VStr "db/twin")]].

Definition server : str := "http://grafana:3000/api/".

Definition grafana (url : str) : result response :=
  if Py.str_eqb url (server ++ lit "search") then
    Ok {| status_code := 200; body := Some hits |}
  else if Py.str_eqb url (server ++ lit "dashboards/db/cluster") then
    Ok {| status_code := 200; body := Some cluster_layout |}
  else if Py.str_eqb url (server ++ lit "dashboards/db/twin") then
    Ok {| status_code := 200; body := Some twin_layout |}
  else
    Ok {| status_code := 404; body := Some not_found |}.

(** A response check that records whether the status is 200. *)
Definition check_status (r : response) (cs : list (bool * str))
  : result unit * list (bool * str) :=
  (Ok tt, cs ++ [(Z.eqb (status_code r) 200, lit "status code should be 200")]).

(** A server that answers every request with the document [v]. *)
Definition answering (v : value) (url : str) : result response :=
  Ok {| status_code := 200; body := Some v |}.

(** A dashboard whose only panel has a ["displayName"] but no
    ["title"]. *)
Definition untitled_row : value :=
  VDict [(AStr "title", VStr "Row");
         (AStr "panels",
          VList [VDict [(AStr "displayName", VStr "Bricks")]])].

Definition untitled_layout : value :=
  VDict [(AStr "dashboard", VDict [(AStr "rows", VList [untitled_row])])].

End Sample.

(** * Properties of the string methods *)

Lemma ascii_eqb_true (a b : ascii) : ascii_eqb a b = true <-> a = b.
Proof. unfold ascii_eqb. apply Ascii.eqb_eq. Qed.

Lemma ascii_eqb_refl (a : ascii) : ascii_eqb a a = true.
Proof. apply ascii_eqb_true. reflexivity. Qed.

Module PyStrFacts.
Import PyStr.


Lemma startswith_true (p s : str) :
  startswith p s = true -> s = p ++ skipn (length p) s.
Proof.
  revert s. induction p as [|a p IH]; intros s H; simpl in *.
  - reflexivity.
  - destruct s as [|b s]; [discriminate|].
    apply andb_true_iff in H. destruct H as [Hab Hp].
    apply ascii_eqb_true in Hab. subst b.
    simpl. f_equal. apply IH. exact Hp.
Qed.


Lemma find_split_cons (sep : str) (c : ascii) (s : str) :
  find_split sep (c :: s) =
  if startswith sep (c :: s) then Some ([], skipn (length sep) (c :: s))
  else match find_split sep s with
       | Some (a, b) => Some (c :: a, b)
       | None => None
       end.
Proof. reflexivity. Qed.

Lemma find_split_nil (sep : str) :
  sep <> [] -> find_split sep [] = None.
Proof. destruct sep; [congruence|reflexivity]. Qed.

Lemma find_split_some (sep s a b : str) :
  find_split sep s = Some (a, b) -> s = a ++ sep ++ b.
Proof.
  revert a b. induction s as [|c s IH]; intros a b H.
  - destruct sep; simpl in H; [|discriminate].
    injection H as <- <-. reflexivity.
  - rewrite find_split_cons in H.
    destruct (startswith sep (c :: s)) eqn:E.
    + injection H as <- <-. simpl. exact (startswith_true _ _ E).
    + destruct (find_split sep s) as [[a' b']|]; [|discriminate].
      injection H as <- <-. simpl. f_equal. apply IH. reflexivity.
Qed.

Lemma find_split_shorter (sep s a b : str) :
  sep <> [] -> find_split sep s = Some (a, b) -> length b < length s.
Proof.
  intros Hsep H. apply find_split_some in H. subst s.
  rewrite !length_app. destruct sep; [congruence|]. simpl. lia.
Qed.

Lemma split_fuel_any (sep : str) (n m : nat) (s : str) :
  sep <> [] -> length s <= n -> length s <= m ->
  split_fuel n sep s = split_fuel m sep s.
Proof.
  intros Hsep. revert m s.
  induction n as [|n IH]; intros m s Hn Hm.
  - destruct s; [|simpl in Hn; lia].
    destruct m; cbn [split_fuel]; [reflexivity|].
    rewrite (find_split_nil _ Hsep). reflexivity.
  - destruct m as [|m].
    + destruct s; [|simpl in Hm; lia].
      cbn [split_fuel]. rewrite (find_split_nil _ Hsep). reflexivity.
    + cbn [split_fuel]. destruct (find_split sep s) as [[a b]|] eqn:E; [|reflexivity].
      pose proof (find_split_shorter _ _ _ _ Hsep E).
      f_equal. apply IH; lia.
Qed.

(** The defining equation of [split]. *)
Lemma split_eq (sep s : str) :
  sep <> [] ->
  split sep s = match find_split sep s with
                | None => [s]
                | Some (a, b) => a :: split sep b
                end.
Proof.
  intros Hsep. unfold split.
  destruct (find_split sep s) as [[a b]|] eqn:E.
  - pose proof (find_split_shorter _ _ _ _ Hsep E).
    destruct (length s) eqn:L; [lia|].
    cbn [split_fuel]. rewrite E. f_equal. apply split_fuel_any; auto; lia.
  - destruct (length s); cbn [split_fuel]; [reflexivity|].
    rewrite E. reflexivity.
Qed.



(** Without an occurrence [replace] returns its argument: the test
    [if tok in target] before a [replace] changes nothing. *)
Lemma replace_absent (old new s : str) :
  contains old s = false -> replace old new s = s.
Proof.
  unfold contains, replace. intros H.
  destruct (find_split old s) eqn:E; [discriminate|].
  destruct (length s); cbn [replace_fuel]; [reflexivity|].
  rewrite E. reflexivity.
Qed.






(** ** Tokens that cannot overlap themselves

    A token [d :: w] in which [d] does not occur again has no occurrence
    overlapping another one: the scan of [replace] meets every occurrence. *)
Section Token.

Variable d : ascii.
Variable w : str.
Hypothesis fresh : ~ In d w.




End Token.

Lemma ascii_eqb_sym (a b : ascii) : ascii_eqb a b = ascii_eqb b a.
Proof. unfold ascii_eqb. apply Ascii.eqb_sym. Qed.

Lemma find_split_char (c : ascii) (s : str) :
  find_split [c] s =
  match after_char c s with
  | Some r => Some (before_char c s, r)
  | None => None
  end.
Proof.
  induction s as [|x s IH]; [reflexivity|].
  rewrite find_split_cons. simpl.
  rewrite andb_true_r, (ascii_eqb_sym c x).
  destruct (ascii_eqb x c); [reflexivity|].
  rewrite IH. destruct (after_char c s); reflexivity.
Qed.

Lemma before_char_all (c : ascii) (s : str) :
  after_char c s = None -> before_char c s = s.
Proof.
  induction s as [|x s IH]; simpl; [reflexivity|].
  destruct (ascii_eqb x c); [discriminate|].
  intros H. f_equal. apply IH. exact H.
Qed.

(** [s.split(c)[1]] is the segment between the first [c] and the next. *)
Lemma split_char_second (c : ascii) (s : str) :
  nth_error (split [c] s) 1 =
  match after_char c s with
  | Some r => Some (before_char c r)
  | None => None
  end.
Proof.
  assert (Hc : [c] <> []) by discriminate.
  rewrite (split_eq _ s Hc), find_split_char.
  destruct (after_char c s) as [r|]; [|reflexivity].
  simpl. rewrite (split_eq _ r Hc), find_split_char.
  destruct (after_char c r) eqn:E; simpl; [reflexivity|].
  rewrite (before_char_all _ _ E). reflexivity.
Qed.


(** Without a first occurrence there is no last one. *)
Lemma rfind_split_none (sep s : str) :
  find_split sep s = None -> rfind_split sep s = None.
Proof.
  induction s as [|c s IH]; intros H.
  - destruct sep; [discriminate|reflexivity].
  - rewrite find_split_cons in H.
    destruct (startswith sep (c :: s)) eqn:E; [discriminate|].
    destruct (find_split sep s) as [[a b]|]; [discriminate|].
    cbn [rfind_split]. rewrite (IH eq_refl), E. reflexivity.
Qed.

End PyStrFacts.

(** * [get_panel_chart_targets]: placeholders and pieces *)

Module ChartTargets.
Import GrafanaApi.

Lemma substitute_str (tok new t : str) :
  substitute tok new (VStr t) = Ok (VStr (PyStr.replace tok new t)).
Proof.
  unfold substitute. simpl.
  destruct (PyStr.contains tok t) eqn:E; [reflexivity|].
  rewrite (PyStrFacts.replace_absent _ _ _ E). reflexivity.
Qed.

Lemma target_queries_str (h c v t : str) :
  target_queries h c v (VStr t) =
  Ok (target_output
        (PyStr.split ", "
           (Spec.host_pass h (Spec.volume_pass v (Spec.cluster_pass c t))))).
Proof.
  unfold target_queries.
  rewrite substitute_str. cbn [rbind].
  rewrite substitute_str. cbn [rbind].
  rewrite substitute_str. reflexivity.
Qed.















(** ** Visible targets *)

Lemma existsb_lookup (k : atom) (d : list (atom * value)) :
  existsb (fun kv => Py.atom_eqb k (fst kv)) d =
  match Py.lookup k d with Some _ => true | None => false end.
Proof.
  induction d as [|[k' x] d IH]; simpl; [reflexivity|].
  destruct (Py.atom_eqb k k'); [reflexivity|exact IH].
Qed.

Lemma shown_dict (d : list (atom * value)) :
  shown (VDict d) = Ok (negb (Spec.hidden d)).
Proof.
  unfold shown, Spec.hidden. cbn [Py.contains Py.getitem rbind].
  rewrite existsb_lookup.
  destruct (Py.lookup (AStr "hide") d); reflexivity.
Qed.

Lemma template_dict (d : list (atom * value)) :
  template (VDict d) =
  match Spec.template_of d with
  | Some t => Ok t
  | None => Err (KeyError (AStr "target"))
  end.
Proof.
  unfold template, Spec.template_of. cbn [Py.get Py.getitem].
  destruct (Py.lookup (AStr "targetFull") d) as [f|] eqn:F; cbn [rbind].
  - destruct (Py.truthy f).
    + reflexivity.
    + destruct (Py.lookup (AStr "target") d); reflexivity.
  - cbn [Py.truthy]. destruct (Py.lookup (AStr "target") d); reflexivity.
Qed.

Lemma visible_templates (ts : list (list (atom * value))) :
  (forall d, In d ts -> Spec.hidden d = false ->
             exists s, Spec.template_of d = Some (VStr s)) ->
  comprehension shown template (map VDict ts) =
  Ok (map (fun d => VStr (Spec.template_str d))
          (filter (fun d => negb (Spec.hidden d)) ts)).
Proof.
  induction ts as [|d ts IH]; intros H; [reflexivity|].
  cbn [map comprehension filter]. rewrite shown_dict. cbn [rbind].
  rewrite IH by (intros d' Hd'; apply H; right; exact Hd').
  destruct (Spec.hidden d) eqn:E; cbn [negb]; [reflexivity|].
  destruct (H d (or_introl eq_refl) E) as [s Hs].
  rewrite template_dict, Hs. cbn [rbind map].
  assert (Hstr : Spec.template_str d = s)
    by (unfold Spec.template_str; rewrite Hs; reflexivity).
  rewrite Hstr. reflexivity.
Qed.

Lemma queries_of_templates (h c v : str) (l : list str) :
  mapM (target_queries h c v) (map (fun s => VStr s) l) =
  Ok (map (Spec.queries h c v) l).
Proof.
  induction l as [|s l IH]; [reflexivity|].
  cbn [map mapM]. rewrite target_queries_str, IH. reflexivity.
Qed.



(** C7.  For a panel with a title whose ["targets"] is a list of target
    objects, each visible one carrying a template string,
    [get_panel_chart_targets] returns one inner list per visible target,
    in order: a target counts exactly when it has no truthy ["hide"], and
    its inner list is computed from its truthy ["targetFull"], or else
    from its ["target"]. *)
Theorem one_inner_list_per_visible_target
  (panel title : value) (ts : list (list (atom * value))) (h c v : str) :
  Py.getitem panel "targets" = Ok (VList (map VDict ts)) ->
  Py.getitem panel "title" = Ok title ->
  (forall d, In d ts -> Spec.hidden d = false ->
             exists s, Spec.template_of d = Some (VStr s)) ->
  chart_targets panel h c v =
  Ok (map (fun d => Spec.queries h c v (Spec.template_str d))
          (filter (fun d => negb (Spec.hidden d)) ts)).
Proof.
  intros Hts Htitle Hwf. unfold chart_targets.
  rewrite Hts. cbn [rbind Py.iter].
  rewrite (visible_templates ts Hwf). cbn [rbind].
  rewrite <- (map_map Spec.template_str (fun s => VStr s)).
  rewrite queries_of_templates. cbn [rbind].
  rewrite Htitle. cbn [rbind].
  rewrite map_map. reflexivity.
Qed.

Lemma one_inner_list_per_visible_target_witness :
  chart_targets Sample.cpu_panel "n1.example.com" "c7" "" =
  Ok [[lit "tendrl.n1_example_com.cpu.user";
       lit "tendrl.n1_example_com.cpu.system"];
      [lit "tendrl.c7.cpu"]].
Proof.
  refine (one_inner_list_per_visible_target Sample.cpu_panel (VStr "CPU")
            [[(AStr "target", VStr "tendrl.$host_name.cpu.{user,system}")];
             [(AStr "target", VStr "tendrl.idle"); (AStr "hide", VBool true)];
             [(AStr "target", VStr "alias(#A, 'a')");
              (AStr "targetFull", VStr "alias(tendrl.$cluster_id.cpu, 'a')");
              (AStr "hide", VBool false)]]
            "n1.example.com" "c7" "" eq_refl eq_refl _).
  intros d [<-|[<-|[<-|[]]]] Hd; vm_compute in Hd; try discriminate;
    eexists; vm_compute; reflexivity.
Defined.

End ChartTargets.

(** * Requests issued by the methods *)

Module Requests.
Import GrafanaApi.

Lemma no_get_lift {A} (r : result A) : Spec.no_get (lift r).
Proof. intros st. reflexivity. Qed.

Lemma no_get_check (c : bool) (msg : str) : Spec.no_get (pytest_check c msg).
Proof. intros st. reflexivity. Qed.

Lemma no_get_bind {A B} (m : M A) (k : A -> M B) :
  Spec.no_get m -> (forall a, Spec.no_get (k a)) -> Spec.no_get (bind m k).
Proof.
  intros Hm Hk st. unfold bind. specialize (Hm st).
  destruct (m st) as [[a|e] st']; simpl in Hm.
  - rewrite (Hk a st'). exact Hm.
  - exact Hm.
Qed.

Lemma one_get_bind {A B} (url : str) (m : M A) (k : A -> M B) :
  Spec.one_get url m -> (forall a, Spec.no_get (k a)) ->
  Spec.one_get url (bind m k).
Proof.
  intros Hm Hk st. unfold bind. specialize (Hm st).
  destruct (m st) as [[a|e] st']; simpl in Hm.
  - rewrite (Hk a st'). exact Hm.
  - exact Hm.
Qed.

Ltac quiet :=
  repeat (intros; first
    [ apply no_get_lift | apply no_get_check
    | apply no_get_bind ]).

Section Methods.

Variable server : str.
Variable http : str -> result response.
Variable check_response :
  response -> list (bool * str) -> result unit * list (bool * str).

Lemma one_get_requests_get (url : str) :
  Spec.one_get url (requests_get http url).
Proof. intros st. reflexivity. Qed.

Lemma no_get_check_response (r : response) :
  Spec.no_get (self_check_response check_response r).
Proof.
  intros st. unfold self_check_response.
  destruct (check_response r (checks st)). reflexivity.
Qed.

Lemma one_get_get_dashboard (slug : str) :
  Spec.one_get (server ++ lit "dashboards/db/" ++ slug)
    (get_dashboard server http check_response slug).
Proof.
  unfold get_dashboard.
  apply one_get_bind; [apply one_get_requests_get|].
  intros r. apply no_get_bind; [apply no_get_check_response|quiet].
Qed.

Lemma one_get_get_dashboards :
  Spec.one_get (server ++ lit "search")
    (get_dashboards server http check_response).
Proof.
  unfold get_dashboards.
  apply one_get_bind; [apply one_get_requests_get|].
  intros r. apply no_get_bind; [apply no_get_check_response|quiet].
Qed.

Lemma one_get_get_panel (panel_title row_title dashboard : str)
  (panel_type : option str) :
  Spec.one_get (server ++ lit "dashboards/db/" ++ dashboard)
    (get_panel server http check_response
       panel_title row_title dashboard panel_type).
Proof.
  unfold get_panel.
  apply one_get_bind; [apply one_get_get_dashboard|quiet].
Qed.

Lemma one_get_compare_structure (structure : value) (slug : str) :
  Spec.one_get (server ++ lit "dashboards/db/" ++ slug)
    (compare_structure server http check_response structure slug).
Proof.
  unfold compare_structure.
  apply one_get_bind; [apply one_get_get_dashboard|quiet].
Qed.

End Methods.

(** C4, amended.  [get_dashboards], [get_dashboard], [get_panel] and
    [compare_structure] each issue exactly one HTTP GET, the last two
    through [get_dashboard]; [get_panel_chart_targets] issues none: it
    works on the panel object it is given. *)
Theorem one_get_per_fetching_method
  (server : str) (http : str -> result response)
  (check_response :
     response -> list (bool * str) -> result unit * list (bool * str)) :
  Spec.one_get (server ++ lit "search")
    (get_dashboards server http check_response)
  /\ (forall slug,
        Spec.one_get (server ++ lit "dashboards/db/" ++ slug)
          (get_dashboard server http check_response slug))
  /\ (forall panel_title row_title dashboard panel_type,
        Spec.one_get (server ++ lit "dashboards/db/" ++ dashboard)
          (get_panel server http check_response
             panel_title row_title dashboard panel_type))
  /\ (forall structure slug,
        Spec.one_get (server ++ lit "dashboards/db/" ++ slug)
          (compare_structure server http check_response structure slug))
  /\ (forall panel host_name cluster_identifier volume_name,
        Spec.no_get
          (get_panel_chart_targets panel
             host_name cluster_identifier volume_name)).
Proof.
  split; [apply one_get_get_dashboards|].
  split; [intros; apply one_get_get_dashboard|].
  split; [intros; apply one_get_get_panel|].
  split; [intros; apply one_get_compare_structure|].
  intros. apply no_get_lift.
Qed.

(** C4 as stated fails: a call of [get_panel_chart_targets] leaves the
    list of requests empty, so it does not perform exactly one GET. *)
Lemma chart_targets_issue_no_get :
  length (gets (snd (get_panel_chart_targets Sample.cpu_panel
                       "n1.example.com" "c7" "" session0))) <> 1.
Proof. vm_compute. discriminate. Qed.

End Requests.

(** * [get_dashboard] and [get_dashboards] *)

Module Fetch.
Import GrafanaApi.

Lemma field_getitem (k : str) (x t : value) :
  Spec.field k x = Some t -> Py.getitem x k = Ok t.
Proof.
  destruct x as [a|l|d]; simpl; try discriminate.
  intros ->. reflexivity.
Qed.

Section Methods.

Variable server : str.
Variable http : str -> result response.
Variable check_response :
  response -> list (bool * str) -> result unit * list (bool * str).

(** C6.  [get_dashboard(slug)] sends its GET to the server base followed
    by [dashboards/db/] and the slug.  When the response check returns, the
    parsed JSON body of the response is the result; when the check raises,
    its exception is. *)
Theorem get_dashboard_fetches_slug (slug : str) (st : session) (r : response) :
  http (server ++ lit "dashboards/db/" ++ slug) = Ok r ->
  gets (snd (get_dashboard server http check_response slug st)) =
    gets st ++ [server ++ lit "dashboards/db/" ++ slug]
  /\ (forall cs j,
        check_response r (checks st) = (Ok tt, cs) ->
        body r = Some j ->
        get_dashboard server http check_response slug st =
        (Ok j, {| gets := gets st ++ [server ++ lit "dashboards/db/" ++ slug];
                  checks := cs |}))
  /\ (forall cs e,
        check_response r (checks st) = (Err e, cs) ->
        fst (get_dashboard server http check_response slug st) = Err e).
Proof.
  intros Hget.
  split; [apply Requests.one_get_get_dashboard|].
  unfold get_dashboard, bind, requests_get, self_check_response, lift.
  rewrite Hget. cbn [checks gets].
  split.
  - intros cs j Hcheck Hbody. rewrite Hcheck.
    unfold response_json. rewrite Hbody. reflexivity.
  - intros cs e Hcheck. rewrite Hcheck. reflexivity.
Qed.

Lemma hit_slugs (entries : list value) :
  Forall Spec.search_hit entries ->
  comprehension
    (fun dashboard =>
       (t <- Py.getitem dashboard "type" ;;
        Ok (Py.eq t (VStr "dash-db")))%result)
    (fun dashboard =>
       (u <- Py.getitem dashboard "uri" ;;
        u <- Py.str_method u ;;
        index (PyStr.split "/" u) 1)%result)
    entries =
  Ok (map Spec.slug (filter Spec.is_dash_db entries)).
Proof.
  induction 1 as [|hit entries [[t Ht] Huri] _ IH]; [reflexivity|].
  cbn [comprehension filter]. rewrite IH.
  rewrite (field_getitem _ _ _ Ht). cbn [rbind].
  assert (Hdb : Spec.is_dash_db hit = Py.eq t (VStr "dash-db"))
    by (unfold Spec.is_dash_db; rewrite Ht; reflexivity).
  rewrite <- Hdb.
  destruct (Spec.is_dash_db hit); [|reflexivity].
  destruct (Huri eq_refl) as [u [r [Hu Hr]]].
  assert (Hf : Spec.field "uri" hit = Some (VStr u)).
  { unfold Spec.uri in Hu.
    destruct (Spec.field "uri" hit) as [[[| | |u']| |]|]; try discriminate.
    congruence. }
  rewrite (field_getitem _ _ _ Hf). cbn [rbind Py.str_method].
  unfold index.
  change (lit "/") with ["/"%char].
  rewrite PyStrFacts.split_char_second, Hr.
  assert (Hslug : Spec.slug hit = PyStr.before_char "/" r)
    by (unfold Spec.slug; rewrite Hu, Hr; reflexivity).
  cbn [rbind map]. rewrite Hslug. reflexivity.
Qed.

(** C5.  When the search endpoint answers with an array of hits,
    [get_dashboards] returns, in the order of the array, the segment after
    the first [/] of the ["uri"] of each hit whose ["type"] is ["dash-db"],
    and nothing for a hit of another type. *)
Theorem get_dashboards_slugs
  (st : session) (r : response) (cs : list (bool * str))
  (entries : list value) :
  http (server ++ lit "search") = Ok r ->
  check_response r (checks st) = (Ok tt, cs) ->
  body r = Some (VList entries) ->
  Forall Spec.search_hit entries ->
  fst (get_dashboards server http check_response st) =
  Ok (map Spec.slug (filter Spec.is_dash_db entries)).
Proof.
  intros Hget Hcheck Hbody Hhits.
  unfold get_dashboards, bind, requests_get, self_check_response, lift.
  rewrite Hget. cbn [checks gets]. rewrite Hcheck.
  unfold response_json. rewrite Hbody.
  cbn [rbind Py.iter fst]. apply hit_slugs. exact Hhits.
Qed.

End Methods.

Lemma get_dashboard_fetches_slug_witness :
  get_dashboard Sample.server Sample.grafana Sample.check_status
    "cluster" session0 =
  (Ok Sample.cluster_layout,
   {| gets := [lit "http://grafana:3000/api/dashboards/db/cluster"];
      checks := [(true, lit "status code should be 200")] |}).
Proof.
  exact (proj1 (proj2
           (get_dashboard_fetches_slug Sample.server Sample.grafana
              Sample.check_status "cluster" session0
              {| status_code := 200; body := Some Sample.cluster_layout |}
              eq_refl))
           _ _ eq_refl eq_refl).
Defined.

Lemma sample_hits :
  Forall Spec.search_hit
    [VDict [(AStr "id", VInt 1); (AStr "type", VStr "dash-folder");
            (AStr "uri", VStr "general")];
     VDict [(AStr "id", VInt 2); (AStr "type", VStr "dash-db");
            (AStr "uri", VStr "db/cluster")];
     VDict [(AStr "id", VInt 3); (AStr "type", VStr "dash-db");
            (AStr "uri", VStr "db/twin")]].
Proof.
  repeat constructor; try (eexists; reflexivity);
    intros H; try discriminate H; do 2 eexists; split; reflexivity.
Defined.

Lemma get_dashboards_slugs_witness :
  fst (get_dashboards Sample.server Sample.grafana Sample.check_status
         session0) =
  Ok [lit "cluster"; lit "twin"].
Proof.
  exact (get_dashboards_slugs Sample.server Sample.grafana
           Sample.check_status session0
           {| status_code := 200; body := Some Sample.hits |}
           [(true, lit "status code should be 200")]
           _ eq_refl eq_refl eq_refl sample_hits).
Defined.

End Fetch.

(** * [get_panel] *)

Module Panel.
Import GrafanaApi.

(** ** Comprehensions that only filter *)

Lemma comprehension_filter {A} (c : A -> result bool) (f : A -> bool)
  (l : list A) :
  Forall (fun x => c x = Ok (f x)) l ->
  comprehension c Ok l = Ok (filter f l).
Proof.
  induction 1 as [|x l Hx _ IH]; [reflexivity|].
  cbn [comprehension filter]. rewrite Hx, IH. cbn [rbind].
  destruct (f x); reflexivity.
Qed.

Lemma comprehension_filter_ok {A} (c : A -> result bool) (f : A -> bool)
  (l found : list A) :
  (forall x b, c x = Ok b -> b = f x) ->
  comprehension c Ok l = Ok found -> found = filter f l.
Proof.
  intros Hc. revert found. induction l as [|x l IH]; intros found H.
  - injection H as <-. reflexivity.
  - cbn [comprehension filter] in *.
    destruct (c x) as [b|e] eqn:E; [|discriminate].
    rewrite <- (Hc x b E). cbn [rbind] in H.
    destruct (comprehension c Ok l) as [r|e]; [|destruct b; discriminate].
    rewrite <- (IH r eq_refl).
    destruct b; cbn [rbind] in H; injection H as <-; reflexivity.
Qed.

Lemma comprehension_raises {A} (c : A -> result bool) (pre post : list A)
  (x : A) (found : list A) (e : exn) :
  comprehension c Ok pre = Ok found -> c x = Err e ->
  comprehension c Ok (pre ++ x :: post) = Err e.
Proof.
  revert found. induction pre as [|y pre IH]; intros found Hpre Hx.
  - cbn [app comprehension]. rewrite Hx. reflexivity.
  - cbn [app comprehension] in *.
    destruct (c y) as [b|e'] eqn:E; [|discriminate]. cbn [rbind] in *.
    destruct (comprehension c Ok pre) as [r|e'] eqn:F;
      [|destruct b; discriminate].
    rewrite (IH r eq_refl Hx). destruct b; reflexivity.
Qed.

(** ** The conditions of the two filters *)

Lemma title_is_dict (title : str) (d : list (atom * value)) :
  title_is title (VDict d) = Ok (Spec.has_title title (VDict d)).
Proof.
  unfold title_is, Spec.has_title, Spec.field.
  cbn [Py.contains Py.getitem rbind].
  rewrite ChartTargets.existsb_lookup.
  destruct (Py.lookup (AStr "title") d); reflexivity.
Qed.

Lemma title_is_ok (title : str) (x : value) (b : bool) :
  title_is title x = Ok b -> b = Spec.has_title title x.
Proof.
  destruct x as [[| | |s]|l|d].
  1-3: unfold title_is; cbn [Py.contains rbind]; discriminate.
  - unfold title_is. cbn [Py.contains rbind].
    destruct (PyStr.contains "title" s); [discriminate|].
    intros H. injection H as <-. reflexivity.
  - unfold title_is. cbn [Py.contains rbind].
    destruct (existsb (Py.eq (VStr "title")) l); [discriminate|].
    intros H. injection H as <-. reflexivity.
  - rewrite title_is_dict. intros H. injection H as <-. reflexivity.
Qed.

Lemma title_type_is_ok (title type : str) (x : value) (b : bool) :
  title_type_is title type x = Ok b ->
  b = Spec.has_title title x && Spec.has_type type x.
Proof.
  unfold title_type_is.
  destruct (title_is title x) as [b1|e] eqn:E; [|discriminate].
  rewrite <- (title_is_ok _ _ _ E). cbn [rbind].
  destruct b1; [|intros H; injection H as <-; reflexivity].
  destruct x as [a|l|d]; try discriminate.
  unfold Spec.has_type, Spec.field. cbn [Py.getitem].
  destruct (Py.lookup (AStr "type") d); [|discriminate].
  intros H. injection H as <-. reflexivity.
Qed.

Lemma title_type_is_typed (title type : str) (d : list (atom * value))
  (t : value) :
  Py.lookup (AStr "type") d = Some t ->
  title_type_is title type (VDict d) =
  Ok (Spec.has_title title (VDict d) && Spec.has_type type (VDict d)).
Proof.
  intros Ht. unfold title_type_is. rewrite title_is_dict. cbn [rbind].
  unfold Spec.has_type, Spec.field. cbn [Py.getitem]. rewrite Ht.
  destruct (Spec.has_title title (VDict d)); reflexivity.
Qed.

(** A panel with the title but without a ["type"]: the filter on the
    type raises. *)
Lemma title_type_is_untyped (title type : str) (x : value) :
  Spec.has_title title x = true -> Spec.field "type" x = None ->
  title_type_is title type x = Err (KeyError (AStr "type")).
Proof.
  destruct x as [a|l|d]; try discriminate.
  intros Ht Hn. unfold title_type_is. rewrite title_is_dict, Ht.
  cbn [rbind Py.getitem]. unfold Spec.field in Hn. rewrite Hn.
  reflexivity.
Qed.

(** ** The two filters *)

Lemma found_rows_dicts (title : str) (rows : list value) :
  Forall Spec.is_dict rows ->
  comprehension (title_is title) Ok rows =
  Ok (filter (Spec.has_title title) rows).
Proof.
  intros H. apply comprehension_filter.
  apply Forall_impl with (2 := H). intros x [d ->]. apply title_is_dict.
Qed.

Lemma found_panels_typed (title : str) (panel_type : option str)
  (panels : list value) :
  Forall (Spec.typed panel_type) panels ->
  found_panels title panel_type panels =
  Ok (filter (Spec.panel_matches title panel_type) panels).
Proof.
  intros H. unfold found_panels, Spec.panel_matches.
  destruct (given panel_type) as [type|] eqn:G.
  - apply comprehension_filter.
    apply Forall_impl with (2 := H).
    intros x [[d ->] [Hn|[t Ht]]]; [congruence|].
    apply (title_type_is_typed _ _ _ t). exact Ht.
  - rewrite (filter_ext _ (Spec.has_title title))
      by (intros x; apply andb_true_r).
    apply found_rows_dicts.
    apply Forall_impl with (2 := H). intros x [Hd _]. exact Hd.
Qed.

Lemma found_panels_ok (title : str) (panel_type : option str)
  (panels found : list value) :
  found_panels title panel_type panels = Ok found ->
  found = filter (Spec.panel_matches title panel_type) panels.
Proof.
  unfold found_panels, Spec.panel_matches.
  destruct (given panel_type) as [type|].
  - apply comprehension_filter_ok. apply title_type_is_ok.
  - rewrite (filter_ext _ (Spec.has_title title))
      by (intros x; apply andb_true_r).
    apply comprehension_filter_ok. apply title_is_ok.
Qed.

(** ** The body of [get_panel] *)

Lemma rows_of_layout (layout : value) (rows : list value) :
  Spec.rows_of layout = Some rows ->
  (exists n, Py.len layout = Ok (S n)) /\ Spec.layout_rows layout = Ok rows.
Proof.
  unfold Spec.rows_of, Spec.layout_rows.
  destruct layout as [a|l|d]; try discriminate.
  cbn [Spec.field Py.getitem Py.len].
  destruct (Py.lookup (AStr "dashboard") d) as [dd|] eqn:E; [|discriminate].
  destruct dd as [a|l|dd]; try discriminate.
  cbn [Spec.field Py.getitem rbind].
  destruct (Py.lookup (AStr "rows") dd) as [[a|l|r]|]; try discriminate.
  intros H. injection H as <-. split; [|reflexivity].
  destruct d; [discriminate|]. eexists. reflexivity.
Qed.

Lemma panels_of_row (row : value) (panels : list value) :
  Spec.panels_of row = Some panels -> Spec.row_panels row = Ok panels.
Proof.
  unfold Spec.panels_of, Spec.row_panels.
  destruct row as [a|l|d]; try discriminate.
  cbn [Spec.field Py.getitem].
  destruct (Py.lookup (AStr "panels") d) as [[a|l|r]|]; try discriminate.
  intros H. injection H as <-. reflexivity.
Qed.

Lemma find_panel_rows (layout : value) (n : nat) (rows : list value)
  (panel_title row_title : str) (panel_type : option str) :
  Py.len layout = Ok (S n) -> Spec.layout_rows layout = Ok rows ->
  find_panel layout panel_title row_title panel_type =
  (found_rows <- comprehension (title_is row_title) Ok rows ;;
   _ <- rassert (Nat.eqb (length found_rows) 1) ;;
   r <- index found_rows 0 ;;
   l <- Spec.row_panels r ;;
   found <- found_panels panel_title panel_type l ;;
   _ <- rassert (Nat.eqb (length found) 1) ;;
   index found 0)%result.
Proof.
  intros Hlen Hrows. unfold find_panel. rewrite Hlen.
  cbn [rbind Nat.ltb Nat.leb rassert].
  unfold Spec.layout_rows in Hrows.
  destruct (Py.getitem layout "dashboard") as [d|e]; [|discriminate].
  cbn [rbind] in *.
  destruct (Py.getitem d "rows") as [r|e]; [|discriminate].
  cbn [rbind] in *. rewrite Hrows. cbn [rbind].
  destruct (comprehension (title_is row_title) Ok rows) as [found|e];
    [|reflexivity].
  cbn [rbind].
  destruct (rassert (Nat.eqb (length found) 1)); [|reflexivity].
  cbn [rbind].
  destruct (index found 0) as [row|e]; [|reflexivity].
  cbn [rbind]. unfold Spec.row_panels.
  destruct (Py.getitem row "panels"); reflexivity.
Qed.

Lemma length_one {A} (l : list A) :
  Nat.eqb (length l) 1 = true -> exists x, l = [x].
Proof.
  destruct l as [|x [|y l]]; try discriminate. intros _. exists x.
  reflexivity.
Qed.

Lemma rassert_ok (c : bool) (u : unit) : rassert c = Ok u -> c = true.
Proof. destruct c; [reflexivity|discriminate]. Qed.

(** What a returned panel tells about the layout. *)
Lemma find_panel_ok (layout : value) (panel_title row_title : str)
  (panel_type : option str) (p : value) :
  find_panel layout panel_title row_title panel_type = Ok p ->
  exists rows row panels,
    Spec.layout_rows layout = Ok rows /\
    filter (Spec.has_title row_title) rows = [row] /\
    Spec.row_panels row = Ok panels /\
    filter (Spec.panel_matches panel_title panel_type) panels = [p].
Proof.
  intros H.
  destruct (Py.len layout) as [n|e] eqn:Hlen;
    [|unfold find_panel in H; rewrite Hlen in H; discriminate].
  destruct n as [|n];
    [unfold find_panel in H; rewrite Hlen in H; discriminate|].
  destruct (Spec.layout_rows layout) as [rows|e] eqn:Hrows.
  - rewrite (find_panel_rows _ _ _ _ _ _ Hlen Hrows) in H.
    destruct (comprehension (title_is row_title) Ok rows) as [found|e]
      eqn:Hfound; [|discriminate].
    cbn [rbind] in H.
    destruct (rassert (Nat.eqb (length found) 1)) as [u|e] eqn:Hone;
      [|discriminate].
    apply rassert_ok, length_one in Hone. destruct Hone as [row ->].
    cbn [rbind index nth_error] in H.
    destruct (Spec.row_panels row) as [panels|e] eqn:Hpanels;
      [|discriminate].
    cbn [rbind] in H.
    destruct (found_panels panel_title panel_type panels) as [fp|e]
      eqn:Hfp; [|discriminate].
    cbn [rbind] in H.
    destruct (rassert (Nat.eqb (length fp) 1)) as [u'|e] eqn:Hone;
      [|discriminate].
    apply rassert_ok, length_one in Hone. destruct Hone as [q ->].
    cbn [rbind index nth_error] in H. injection H as ->.
    exists rows, row, panels.
    apply comprehension_filter_ok with (f := Spec.has_title row_title)
      in Hfound; [|apply title_is_ok].
    apply found_panels_ok in Hfp.
    repeat split; congruence.
  - exfalso. unfold find_panel in H. rewrite Hlen in H.
    cbn [rbind Nat.ltb Nat.leb rassert] in H.
    unfold Spec.layout_rows in Hrows.
    destruct (Py.getitem layout "dashboard") as [d|e']; [|discriminate].
    cbn [rbind] in *.
    destruct (Py.getitem d "rows") as [r|e']; [|discriminate].
    cbn [rbind] in *. rewrite Hrows in H. discriminate.
Qed.

(** The outcome on a layout whose rows are a list of objects. *)
Lemma find_panel_rows_of (layout : value) (rows : list value)
  (panel_title row_title : str) (panel_type : option str) :
  Spec.rows_of layout = Some rows -> Forall Spec.is_dict rows ->
  find_panel layout panel_title row_title panel_type =
  match filter (Spec.has_title row_title) rows with
  | [row] =>
      (l <- Spec.row_panels row ;;
       found <- found_panels panel_title panel_type l ;;
       _ <- rassert (Nat.eqb (length found) 1) ;;
       index found 0)%result
  | _ => Err AssertionError
  end.
Proof.
  intros Hrows Hdicts.
  destruct (rows_of_layout _ _ Hrows) as [[n Hlen] Hlr].
  rewrite (find_panel_rows _ _ _ _ _ _ Hlen Hlr).
  rewrite (found_rows_dicts _ _ Hdicts). cbn [rbind].
  destruct (filter (Spec.has_title row_title) rows) as [|row [|row' l]];
    reflexivity.
Qed.

Lemma one_or_assertion {A} (l : list A) :
  (_ <- rassert (Nat.eqb (length l) 1) ;; index l 0)%result =
  match l with
  | [x] => Ok x
  | _ => Err AssertionError
  end.
Proof. destruct l as [|x [|y l]]; reflexivity. Qed.

Section Methods.

Variable server : str.
Variable http : str -> result response.
Variable check_response :
  response -> list (bool * str) -> result unit * list (bool * str).

Lemma get_panel_run (panel_title row_title dashboard : str)
  (panel_type : option str) (st st1 : session) (layout : value) :
  get_dashboard server http check_response dashboard st = (Ok layout, st1) ->
  get_panel server http check_response
    panel_title row_title dashboard panel_type st =
  (find_panel layout panel_title row_title panel_type, st1).
Proof. intros H. unfold get_panel, bind. rewrite H. reflexivity. Qed.

(** C10.  When a non-empty [panel_type] is given and, in the one row with
    the requested title, the first panel with the requested title has no
    ["type"] key, [get_panel] ends with a [KeyError] for ["type"]: the
    panel is not filtered out and no assertion fires. *)
Theorem missing_type_key_raises
  (panel_title row_title dashboard type : str) (st st1 : session)
  (layout row p : value) (rows pre post : list value) :
  get_dashboard server http check_response dashboard st = (Ok layout, st1) ->
  Spec.rows_of layout = Some rows ->
  Forall Spec.is_dict rows ->
  filter (Spec.has_title row_title) rows = [row] ->
  Spec.panels_of row = Some (pre ++ p :: post) ->
  Forall (Spec.typed (Some type)) pre ->
  Spec.has_title panel_title p = true ->
  Spec.field "type" p = None ->
  type <> [] ->
  fst (get_panel server http check_response
         panel_title row_title dashboard (Some type) st) =
  Err (KeyError (AStr "type")).
Proof.
  intros Hdash Hrows Hdicts Hrow Hpanels Hpre Htitle Hno Htype.
  rewrite (get_panel_run _ _ _ _ _ _ _ Hdash). cbn [fst].
  rewrite (find_panel_rows_of _ _ _ _ _ Hrows Hdicts), Hrow.
  rewrite (panels_of_row _ _ Hpanels). cbn [rbind].
  pose proof (found_panels_typed panel_title _ _ Hpre) as Hfound.
  unfold found_panels in *.
  destruct type as [|c type]; [congruence|]. cbn [given] in *.
  rewrite (comprehension_raises _ pre post p _ _ Hfound
             (title_type_is_untyped _ _ _ Htitle Hno)).
  reflexivity.
Qed.

(** C1, amended.  [get_panel] returns a panel only when exactly one of
    the rows of [layout["dashboard"]["rows"]] has the requested title and
    exactly one of that row's panels has the requested title (and the
    requested type, when [panel_type] is a non-empty string).  It fails
    with an assertion error when the layout is empty and, on a layout
    whose rows are a list of objects and whose panels are a list of
    objects (with a ["type"] when the type is filtered on), whenever the
    matching rows or the matching panels are not exactly one; on such a
    layout it returns the panel otherwise.  A non-empty layout without
    ["dashboard"] ends the call with the error of that lookup, not with
    an assertion error. *)
Theorem get_panel_outcomes
  (panel_title row_title dashboard : str) (panel_type : option str)
  (st st1 : session) (layout : value) :
  get_dashboard server http check_response dashboard st = (Ok layout, st1) ->
  let r := fst (get_panel server http check_response
                  panel_title row_title dashboard panel_type st) in
  (forall p,
     r = Ok p ->
     exists rows row panels,
       Spec.layout_rows layout = Ok rows /\
       filter (Spec.has_title row_title) rows = [row] /\
       Spec.row_panels row = Ok panels /\
       filter (Spec.panel_matches panel_title panel_type) panels = [p])
  /\ (Py.len layout = Ok 0 -> r = Err AssertionError)
  /\ (forall rows,
        Spec.rows_of layout = Some rows ->
        Forall Spec.is_dict rows ->
        match filter (Spec.has_title row_title) rows with
        | [row] =>
            forall panels,
              Spec.panels_of row = Some panels ->
              Forall (Spec.typed panel_type) panels ->
              r = match filter (Spec.panel_matches panel_title panel_type)
                          panels with
                  | [p] => Ok p
                  | _ => Err AssertionError
                  end
        | _ => r = Err AssertionError
        end)
  /\ (forall n,
        Py.len layout = Ok (S n) ->
        Spec.field "dashboard" layout = None ->
        r = Err match layout with
                | VDict _ => KeyError (AStr "dashboard")
                | _ => TypeError
                end).
Proof.
  intros Hdash r. subst r.
  rewrite (get_panel_run _ _ _ _ _ _ _ Hdash). cbn [fst].
  split; [intros p; apply find_panel_ok|].
  split; [|split].
  - intros Hlen. unfold find_panel. rewrite Hlen. reflexivity.
  - intros rows Hrows Hdicts.
    rewrite (find_panel_rows_of _ _ _ _ _ Hrows Hdicts).
    destruct (filter (Spec.has_title row_title) rows) as [|row [|row' l]];
      try reflexivity.
    intros panels Hpanels Htyped.
    rewrite (panels_of_row _ _ Hpanels). cbn [rbind].
    rewrite (found_panels_typed _ _ _ Htyped). cbn [rbind].
    apply one_or_assertion.
  - intros n Hlen Hno. unfold find_panel. rewrite Hlen.
    cbn [rbind Nat.ltb Nat.leb rassert].
    destruct layout as [a|l|d]; try reflexivity.
    cbn [Spec.field] in Hno. cbn [Py.getitem]. rewrite Hno. reflexivity.
Qed.

End Methods.

Lemma sample_rows_dicts :
  Forall Spec.is_dict [Sample.header_row; Sample.utilization_row].
Proof. repeat constructor; eexists; reflexivity. Defined.

Lemma missing_type_key_raises_witness :
  fst (get_panel Sample.server Sample.grafana Sample.check_status
         "Notes" "Header" "cluster" (Some (lit "text")) session0) =
  Err (KeyError (AStr "type")).
Proof.
  refine (missing_type_key_raises Sample.server Sample.grafana
            Sample.check_status "Notes" "Header" "cluster" "text"
            session0 _ Sample.cluster_layout Sample.header_row
            (VDict [(AStr "title", VStr "Notes")])
            [Sample.header_row; Sample.utilization_row]
            [VDict [(AStr "title", VStr "Health");
                    (AStr "type", VStr "singlestat")];
             VDict [(AStr "title", VStr "");
                    (AStr "displayName", VStr "Uptime");
                    (AStr "type", VStr "singlestat")]]
            []
            eq_refl eq_refl sample_rows_dicts eq_refl eq_refl _
            eq_refl eq_refl _).
  - repeat constructor; try (eexists; reflexivity);
      right; eexists; reflexivity.
  - discriminate.
Defined.

(** C1 as stated fails: for a dashboard Grafana does not have, the
    layout is a non-empty object without ["dashboard"]; no row matches,
    yet [get_panel] ends with a [KeyError], not with an assertion error. *)
Lemma get_panel_key_error_not_assertion :
  let r := fst (get_panel Sample.server Sample.grafana Sample.check_status
                  "CPU" "Utilization" "absent" None session0) in
  r = Err (KeyError (AStr "dashboard")) /\
  r <> Err AssertionError /\
  (forall p, r <> Ok p).
Proof.
  vm_compute. repeat split; intros; discriminate.
Qed.

Lemma get_panel_outcomes_witness :
  fst (get_panel Sample.server Sample.grafana Sample.check_status
         "CPU" "Utilization" "cluster" (Some (lit "graph")) session0) =
  Ok (VDict [(AStr "title", VStr "CPU"); (AStr "type", VStr "graph")])
  /\
  fst (get_panel Sample.server Sample.grafana Sample.check_status
         "CPU" "Utilization" "cluster" None session0) =
  Err AssertionError.
Proof.
  assert (Hp : forall panel_type,
             Forall (Spec.typed panel_type)
               [VDict [(AStr "title", VStr "CPU");
                       (AStr "type", VStr "graph")];
                VDict [(AStr "title", VStr "CPU");
                       (AStr "type", VStr "singlestat")]]).
  { intros panel_type. repeat constructor; try (eexists; reflexivity);
      right; eexists; reflexivity. }
  split.
  - exact (proj1 (proj2 (proj2
             (get_panel_outcomes Sample.server Sample.grafana
                Sample.check_status "CPU" "Utilization" "cluster"
                (Some (lit "graph")) session0 _ Sample.cluster_layout
                eq_refl)))
             _ eq_refl sample_rows_dicts _ eq_refl (Hp _)).
  - exact (proj1 (proj2 (proj2
             (get_panel_outcomes Sample.server Sample.grafana
                Sample.check_status "CPU" "Utilization" "cluster"
                None session0 _ Sample.cluster_layout
                eq_refl)))
             _ eq_refl sample_rows_dicts _ eq_refl (Hp _)).
Defined.

End Panel.

(** * [compare_structure] *)

Module Structure.
Import GrafanaApi.

(** ** Dictionaries *)

Lemma str_eqb_refl (s : str) : Py.str_eqb s s = true.
Proof.
  induction s as [|c s IH]; [reflexivity|].
  simpl. rewrite ascii_eqb_refl. exact IH.
Qed.

Lemma str_eqb_true (s t : str) : Py.str_eqb s t = true -> s = t.
Proof.
  revert t. induction s as [|c s IH]; intros [|c' t] H;
    try discriminate; [reflexivity|].
  simpl in H. apply andb_true_iff in H. destruct H as [Hc Hs].
  apply ascii_eqb_true in Hc. f_equal; [exact Hc|apply IH; exact Hs].
Qed.

Lemma atom_eqb_refl (a : atom) : Py.atom_eqb a a = true.
Proof.
  destruct a as [|b|n|s]; simpl.
  - reflexivity.
  - destruct b; reflexivity.
  - apply Z.eqb_refl.
  - apply str_eqb_refl.
Qed.

(** Only a string equals a string key. *)
Lemma atom_eqb_str (a b : atom) :
  Py.atom_eqb a b = true -> Py.is_str_key b = true -> Py.is_str_key a = true.
Proof. destruct a, b; simpl; intros; try discriminate; reflexivity. Qed.

Lemma lookup_setitem (k : atom) (v : value) (sg : list (atom * value)) :
  Py.lookup k (Py.setitem k v sg) = Some v.
Proof.
  induction sg as [|[k' v'] sg IH]; simpl.
  - rewrite atom_eqb_refl. reflexivity.
  - destruct (Py.atom_eqb k k') eqn:E; simpl; rewrite E; [reflexivity|].
    exact IH.
Qed.

Lemma setitem_setitem (k : atom) (v v' : value) (sg : list (atom * value)) :
  Py.setitem k v' (Py.setitem k v sg) = Py.setitem k v' sg.
Proof.
  induction sg as [|[k1 v1] sg IH]; simpl.
  - rewrite atom_eqb_refl. reflexivity.
  - destruct (Py.atom_eqb k k1) eqn:E; simpl; rewrite E; [reflexivity|].
    rewrite IH. reflexivity.
Qed.

Lemma lookup_setitem_other (s t : str) (v : value)
  (sg : list (atom * value)) :
  s <> t ->
  Py.lookup (AStr s) (Py.setitem (AStr t) v sg) = Py.lookup (AStr s) sg.
Proof.
  intros Hne.
  assert (Hst : Py.str_eqb s t = false).
  { destruct (Py.str_eqb s t) eqn:E; [|reflexivity].
    apply str_eqb_true in E. contradiction. }
  induction sg as [|[k1 v1] sg IH]; cbn [Py.setitem Py.lookup].
  - cbn [Py.atom_eqb]. rewrite Hst. reflexivity.
  - destruct (Py.atom_eqb (AStr t) k1) eqn:E; cbn [Py.lookup].
    + destruct k1 as [| | |u]; try discriminate E.
      cbn [Py.atom_eqb] in *. apply str_eqb_true in E. subst u.
      rewrite Hst. reflexivity.
    + destruct (Py.atom_eqb (AStr s) k1); [reflexivity|exact IH].
Qed.

Lemma lookup_in (k : atom) (d : list (atom * value)) (w : value) :
  Py.lookup k d = Some w ->
  exists k', In (k', w) d /\ Py.atom_eqb k k' = true.
Proof.
  induction d as [|[k1 v1] d IH]; simpl; [discriminate|].
  destruct (Py.atom_eqb k k1) eqn:E.
  - intros H. injection H as ->. exists k1. split; [left; reflexivity|exact E].
  - intros H. destruct (IH H) as [k' [Hin Hk]].
    exists k'. split; [right; exact Hin|exact Hk].
Qed.

(** ** Induction on objects *)

Lemma value_induction (P : value -> Prop) :
  (forall a, P (VAtom a)) ->
  (forall l, Forall P l -> P (VList l)) ->
  (forall d, Forall (fun kv => P (snd kv)) d -> P (VDict d)) ->
  forall v, P v.
Proof.
  intros Ha Hl Hd. fix IH 1. intros [a|l|d].
  - apply Ha.
  - apply Hl. induction l as [|x l IHl]; constructor; [apply IH|exact IHl].
  - apply Hd. induction d as [|[k w] d IHd]; constructor;
      [apply IH|exact IHd].
Qed.

Lemma is_json_dict (d : list (atom * value)) :
  Spec.is_json (VDict d) =
  forallb (fun kv => Py.is_str_key (fst kv) && Spec.is_json (snd kv)) d.
Proof.
  induction d as [|[k w] d IH]; [reflexivity|].
  cbn [forallb fst snd]. rewrite <- IH. reflexivity.
Qed.

Lemma dumps_ok_dict (d : list (atom * value)) :
  Py.dumps_ok (VDict d) =
  Py.sortable (map fst d) && forallb (fun kv => Py.dumps_ok (snd kv)) d.
Proof.
  cbn [Py.dumps_ok]. f_equal.
  induction d as [|[k w] d IH]; [reflexivity|].
  cbn [forallb snd]. rewrite <- IH. reflexivity.
Qed.

Lemma eq_list (l m : list value) :
  Py.eq (VList l) (VList m) =
  match l, m with
  | [], [] => true
  | x :: l', y :: m' => Py.eq x y && Py.eq (VList l') (VList m')
  | _, _ => false
  end.
Proof. destruct l, m; reflexivity. Qed.

Lemma eq_dict (d e : list (atom * value)) :
  Py.eq (VDict d) (VDict e) =
  Nat.eqb (length d) (length e) &&
  forallb (fun kv => match Py.lookup (fst kv) e with
                     | Some w => Py.eq (snd kv) w
                     | None => false
                     end) d.
Proof.
  cbn [Py.eq]. f_equal.
  induction d as [|[k w] d IH]; [reflexivity|].
  cbn [forallb fst snd]. rewrite <- IH. reflexivity.
Qed.

Lemma sortable_strings (ks : list atom) :
  forallb Py.is_str_key ks = true -> Py.sortable ks = true.
Proof.
  intros H. unfold Py.sortable.
  destruct ks as [|k [|k' ks]]; try reflexivity.
  rewrite H. reflexivity.
Qed.

(** [json.dumps] returns on a parsed JSON document. *)
Lemma json_dumps_ok (v : value) :
  Spec.is_json v = true -> Py.dumps_ok v = true.
Proof.
  induction v as [a|l IH|d IH] using value_induction; intros H.
  - reflexivity.
  - cbn [Spec.is_json Py.dumps_ok] in *.
    rewrite forallb_forall in *. rewrite Forall_forall in IH.
    intros x Hx. apply IH; [exact Hx|apply H; exact Hx].
  - rewrite is_json_dict in H. rewrite dumps_ok_dict.
    rewrite forallb_forall in H. rewrite Forall_forall in IH.
    apply andb_true_iff. split.
    + apply sortable_strings. apply forallb_forall.
      intros k Hk. apply in_map_iff in Hk. destruct Hk as [kv [<- Hkv]].
      specialize (H kv Hkv). apply andb_true_iff in H. apply H.
    + apply forallb_forall. intros kv Hkv. apply IH; [exact Hkv|].
      specialize (H kv Hkv). apply andb_true_iff in H. apply H.
Qed.

(** An object equal to a parsed JSON document has string keys too. *)
Lemma eq_is_json (a : value) :
  forall b, Py.eq a b = true -> Spec.is_json b = true ->
            Spec.is_json a = true.
Proof.
  induction a as [x|l IH|d IH] using value_induction; intros b Heq Hb.
  - reflexivity.
  - destruct b as [y|m|e]; try discriminate.
    revert m Heq Hb. induction IH as [|x l Hx _ IHl]; intros m Heq Hb.
    + reflexivity.
    + rewrite eq_list in Heq. destruct m as [|y m]; [discriminate|].
      apply andb_true_iff in Heq. destruct Heq as [Hxy Hlm].
      cbn [Spec.is_json forallb] in *.
      apply andb_true_iff in Hb. destruct Hb as [Hy Hm].
      apply andb_true_iff. split; [apply (Hx y); assumption|].
      apply (IHl m); assumption.
  - destruct b as [y|m|e]; try discriminate.
    rewrite eq_dict in Heq. apply andb_true_iff in Heq.
    destruct Heq as [_ Heq].
    rewrite is_json_dict in *.
    rewrite forallb_forall in *. rewrite Forall_forall in IH.
    intros kv Hkv. specialize (Heq kv Hkv).
    destruct (Py.lookup (fst kv) e) as [w|] eqn:E; [|discriminate].
    destruct (lookup_in _ _ _ E) as [k' [Hin Hk]].
    specialize (Hb (k', w) Hin). cbn [fst snd] in Hb.
    apply andb_true_iff in Hb. destruct Hb as [Hstr Hw].
    apply andb_true_iff. split.
    + apply (atom_eqb_str _ _ Hk Hstr).
    + apply (IH kv Hkv w); assumption.
Qed.

(** ** The loops build the expected mapping *)

Lemma existsb_keys (k : atom) (d : list (atom * value)) :
  existsb (Py.atom_eqb k) (map fst d) =
  match Py.lookup k d with Some _ => true | None => false end.
Proof.
  induction d as [|[k' x] d IH]; simpl; [reflexivity|].
  destruct (Py.atom_eqb k k'); [reflexivity|exact IH].
Qed.

Lemma names_one (p : value) :
  Spec.names [p] = match Spec.panel_name p with
                   | Some x => [x]
                   | None => []
                   end.
Proof. unfold Spec.names. cbn [flat_map]. apply app_nil_r. Qed.

Lemma names_cons (p : value) (panels : list value) :
  Spec.names (p :: panels) = Spec.names [p] ++ Spec.names panels.
Proof. rewrite names_one. reflexivity. Qed.

(** One panel: its name, if it has one, is appended to the list kept
    under the title of the row. *)
Lemma add_panel_titled (row p : value) (t : str) (acc : list value)
  (sg : list (atom * value)) :
  Spec.field "title" row = Some (VStr t) ->
  (exists pt, Spec.field "title" p = Some pt) ->
  add_panel row p (Py.setitem (AStr t) (VList acc) sg) =
  Ok (Py.setitem (AStr t) (VList (acc ++ Spec.names [p])) sg).
Proof.
  intros Hrow [pt Hpt].
  assert (Happ : forall x,
             append_to (AStr t) x (Py.setitem (AStr t) (VList acc) sg) =
             Ok (Py.setitem (AStr t) (VList (acc ++ [x])) sg)).
  { intros x. unfold append_to.
    rewrite lookup_setitem, setitem_setitem. reflexivity. }
  rewrite names_one. unfold add_panel, Spec.panel_name.
  rewrite (Fetch.field_getitem _ _ _ Hpt), Hpt. cbn [rbind].
  rewrite (Fetch.field_getitem _ _ _ Hrow). cbn [rbind Py.hashable].
  destruct (Py.truthy pt); [apply Happ|].
  destruct p as [a|l|d]; try discriminate.
  cbn [Py.keys rbind Spec.field Py.getitem].
  rewrite existsb_keys.
  destruct (Py.lookup (AStr "displayName") d) as [n|].
  - cbn [rbind]. destruct (Py.truthy n); [apply Happ|].
    rewrite app_nil_r. reflexivity.
  - rewrite app_nil_r. reflexivity.
Qed.

Lemma add_panels_titled (row : value) (t : str) (panels : list value) :
  Spec.field "title" row = Some (VStr t) ->
  Forall (fun p => exists pt, Spec.field "title" p = Some pt) panels ->
  forall acc sg,
    foldM (add_panel row) panels (Py.setitem (AStr t) (VList acc) sg) =
    Ok (Py.setitem (AStr t) (VList (acc ++ Spec.names panels)) sg).
Proof.
  intros Hrow. induction 1 as [|p panels Hp _ IH]; intros acc sg.
  - cbn [foldM]. unfold Spec.names. cbn [flat_map].
    rewrite app_nil_r. reflexivity.
  - cbn [foldM]. rewrite (add_panel_titled _ _ _ _ _ Hrow Hp).
    cbn [rbind]. rewrite IH, (names_cons p panels), app_assoc.
    reflexivity.
Qed.

Lemma add_row_titled (row : value) (sg : list (atom * value)) :
  Spec.titled_row row ->
  add_row row sg =
  Ok (Py.setitem (AStr (Spec.row_title row))
        (VList (Spec.row_names row)) sg).
Proof.
  intros [[t Ht] [panels [Hpanels Htitles]]].
  unfold add_row, Spec.row_title, Spec.row_names.
  rewrite (Fetch.field_getitem _ _ _ Ht), Ht, Hpanels.
  cbn [rbind Py.hashable].
  unfold Spec.panels_of in Hpanels.
  destruct (Spec.field "panels" row) as [[a|l|d]|] eqn:E;
    try discriminate.
  injection Hpanels as ->.
  rewrite (Fetch.field_getitem _ _ _ E). cbn [rbind Py.iter].
  apply (add_panels_titled row t panels Ht Htitles []).
Qed.

Lemma structure_grafana_from (rows : list value) :
  Forall Spec.titled_row rows ->
  forall sg,
    foldM add_row rows sg =
    Ok (fold_left
          (fun sg row =>
             Py.setitem (AStr (Spec.row_title row))
               (VList (Spec.row_names row)) sg)
          rows sg).
Proof.
  induction 1 as [|row rows Hrow _ IH]; intros sg; [reflexivity|].
  cbn [foldM fold_left]. rewrite (add_row_titled _ _ Hrow). cbn [rbind].
  apply IH.
Qed.

Lemma structure_grafana_expected (rows : list value) :
  Forall Spec.titled_row rows ->
  structure_grafana rows = Ok (Spec.expected rows).
Proof. intros H. apply (structure_grafana_from rows H []). Qed.

(** ** The expected mapping is a JSON document *)

Lemma is_json_field (k : str) (x v : value) :
  Spec.is_json x = true -> Spec.field k x = Some v ->
  Spec.is_json v = true.
Proof.
  destruct x as [a|l|d]; try discriminate.
  rewrite is_json_dict. cbn [Spec.field]. intros H Hk.
  destruct (lookup_in _ _ _ Hk) as [k' [Hin _]].
  rewrite forallb_forall in H. specialize (H _ Hin).
  apply andb_true_iff in H. apply H.
Qed.

Lemma is_json_panel_name (p x : value) :
  Spec.is_json p = true -> Spec.panel_name p = Some x ->
  Spec.is_json x = true.
Proof.
  intros Hp. unfold Spec.panel_name.
  destruct (Spec.field "title" p) as [t|] eqn:Et; [|discriminate].
  destruct (Py.truthy t).
  - intros H. injection H as <-. apply (is_json_field _ _ _ Hp Et).
  - destruct (Spec.field "displayName" p) as [n|] eqn:En; [|discriminate].
    destruct (Py.truthy n); [|discriminate].
    intros H. injection H as <-. apply (is_json_field _ _ _ Hp En).
Qed.

Lemma is_json_names (panels : list value) :
  Spec.is_json (VList panels) = true ->
  Spec.is_json (VList (Spec.names panels)) = true.
Proof.
  cbn [Spec.is_json]. rewrite !forallb_forall. intros H x Hx.
  unfold Spec.names in Hx. apply in_flat_map in Hx.
  destruct Hx as [p [Hp Hin]].
  destruct (Spec.panel_name p) as [y|] eqn:E; [|destruct Hin].
  destruct Hin as [<-|[]]. apply (is_json_panel_name p); [|exact E].
  apply H. exact Hp.
Qed.

Lemma is_json_row_names (row : value) :
  Spec.is_json row = true ->
  Spec.is_json (VList (Spec.row_names row)) = true.
Proof.
  intros Hrow. unfold Spec.row_names, Spec.panels_of.
  destruct (Spec.field "panels" row) as [[a|l|d]|] eqn:E; try reflexivity.
  apply is_json_names. apply (is_json_field _ _ _ Hrow E).
Qed.

Lemma is_json_setitem (t : str) (v : value) (sg : list (atom * value)) :
  Spec.is_json (VDict sg) = true -> Spec.is_json v = true ->
  Spec.is_json (VDict (Py.setitem (AStr t) v sg)) = true.
Proof.
  rewrite !is_json_dict. intros Hsg Hv.
  induction sg as [|[k1 v1] sg IH]; cbn [Py.setitem forallb fst snd] in *.
  - rewrite Hv. reflexivity.
  - apply andb_true_iff in Hsg. destruct Hsg as [H1 Hsg].
    apply andb_true_iff in H1. destruct H1 as [Hk1 Hv1].
    destruct (Py.atom_eqb (AStr t) k1); cbn [forallb fst snd];
      rewrite Hk1, ?Hv, ?Hv1, ?Hsg, ?(IH Hsg); reflexivity.
Qed.

Lemma is_json_expected (rows : list value) :
  Spec.is_json (VList rows) = true ->
  Spec.is_json (VDict (Spec.expected rows)) = true.
Proof.
  unfold Spec.expected. intros H.
  assert (Hgen : forall sg,
             Spec.is_json (VDict sg) = true ->
             Spec.is_json
               (VDict (fold_left
                         (fun sg row =>
                            Py.setitem (AStr (Spec.row_title row))
                              (VList (Spec.row_names row)) sg)
                         rows sg)) = true).
  { induction rows as [|row rows IH]; intros sg Hsg; [exact Hsg|].
    cbn [Spec.is_json forallb] in H. apply andb_true_iff in H.
    destruct H as [Hrow Hrows].
    cbn [fold_left]. apply (IH Hrows).
    apply is_json_setitem; [exact Hsg|apply is_json_row_names; exact Hrow]. }
  apply Hgen. reflexivity.
Qed.

Lemma is_json_rows_of (layout : value) (rows : list value) :
  Spec.is_json layout = true -> Spec.rows_of layout = Some rows ->
  Spec.is_json (VList rows) = true.
Proof.
  intros Hl. unfold Spec.rows_of.
  destruct (Spec.field "dashboard" layout) as [d|] eqn:Ed; [|discriminate].
  destruct (Spec.field "rows" d) as [[a|l|r]|] eqn:Er; try discriminate.
  intros H. injection H as <-.
  apply (is_json_field _ _ _ (is_json_field _ _ _ Hl Ed) Er).
Qed.

(** ** A later row replaces an earlier one of the same title *)

Lemma lookup_later_rows (t : str) (post : list value) :
  (forall r, In r post -> Spec.row_title r <> t) ->
  forall sg,
    Py.lookup (AStr t)
      (fold_left
         (fun sg row =>
            Py.setitem (AStr (Spec.row_title row))
              (VList (Spec.row_names row)) sg)
         post sg) =
    Py.lookup (AStr t) sg.
Proof.
  induction post as [|r post IH]; intros Hne sg; [reflexivity|].
  cbn [fold_left].
  rewrite IH by (intros r' Hr'; apply Hne; right; exact Hr').
  apply lookup_setitem_other.
  intros E. apply (Hne r (or_introl eq_refl)). symmetry. exact E.
Qed.

Lemma expected_last_row (pre post : list value) (row : value) :
  (forall r, In r post -> Spec.row_title r <> Spec.row_title row) ->
  Py.lookup (AStr (Spec.row_title row)) (Spec.expected (pre ++ row :: post))
  = Some (VList (Spec.row_names row)).
Proof.
  intros Hne. unfold Spec.expected.
  rewrite fold_left_app. cbn [fold_left].
  rewrite (lookup_later_rows _ post Hne). apply lookup_setitem.
Qed.

(** ** The method *)

Section Methods.

Variable server : str.
Variable http : str -> result response.
Variable check_response :
  response -> list (bool * str) -> result unit * list (bool * str).

(** The run of [compare_structure] on a dashboard of titled rows. *)
Lemma compare_structure_run (structure : value) (slug : str)
  (st st1 : session) (layout : value) (rows : list value) :
  get_dashboard server http check_response slug st = (Ok layout, st1) ->
  Spec.is_json layout = true ->
  Spec.rows_of layout = Some rows ->
  Forall Spec.titled_row rows ->
  compare_structure server http check_response structure slug st =
  let st2 := {| gets := gets st1;
                checks := checks st1 ++
                          [(true, slug ++ lit " dashboard should not be empty")]
             |} in
  if Py.dumps_ok structure then
    (Ok tt,
     {| gets := gets st1;
        checks := checks st2 ++
                  [(Py.eq structure (VDict (Spec.expected rows)),
                    Spec.equality_message)] |})
  else (Err TypeError, st2).
Proof.
  intros Hdash Hjson Hrows Htitled.
  destruct (Panel.rows_of_layout _ _ Hrows) as [[n Hlen] Hlr].
  unfold compare_structure, bind. rewrite Hdash.
  unfold lift at 1. rewrite Hlen.
  cbn [Nat.ltb Nat.leb pytest_check gets checks].
  unfold Spec.layout_rows in Hlr. unfold lift at 1.
  destruct (Py.getitem layout "dashboard") as [d|e]; [|discriminate].
  cbn [rbind] in *. rewrite Hlr.
  unfold lift at 1. rewrite (structure_grafana_expected _ Htitled).
  unfold lift.
  rewrite (json_dumps_ok _ (is_json_expected _
                              (is_json_rows_of _ _ Hjson Hrows))).
  destruct (Py.dumps_ok structure); reflexivity.
Qed.

(** C3, amended.  On a dashboard whose rows have a string title and
    whose panels all have a ["title"] key, [compare_structure] passes its
    equality check if and only if [structure] equals the mapping from the
    row titles to the list, in panel order, of the names of the row's
    panels: the ["title"] when truthy, else the ["displayName"] when
    truthy, the panel being left out otherwise.  When several rows carry
    one title, the mapping holds the list of the last of them only. *)
Theorem compare_structure_check (structure : value) (slug : str)
  (st st1 : session) (layout : value) (rows : list value) :
  get_dashboard server http check_response slug st = (Ok layout, st1) ->
  Spec.is_json layout = true ->
  Spec.rows_of layout = Some rows ->
  Forall Spec.titled_row rows ->
  (Spec.equality_check_passed
     (compare_structure server http check_response structure slug st)
   <-> Py.eq structure (VDict (Spec.expected rows)) = true)
  /\ (forall pre row post,
        rows = pre ++ row :: post ->
        (forall r, In r post -> Spec.row_title r <> Spec.row_title row) ->
        Py.lookup (AStr (Spec.row_title row)) (Spec.expected rows) =
        Some (VList (Spec.row_names row))).
Proof.
  intros Hdash Hjson Hrows Htitled.
  split; [|intros pre row post -> Hne; apply expected_last_row; exact Hne].
  rewrite (compare_structure_run structure _ _ _ _ _
             Hdash Hjson Hrows Htitled).
  cbn zeta. unfold Spec.equality_check_passed.
  split.
  - intros [Hok [cs Hcs]].
    destruct (Py.dumps_ok structure); [|discriminate].
    cbn [snd checks] in Hcs. apply app_inj_tail in Hcs.
    destruct Hcs as [_ Hcs]. injection Hcs as ->. reflexivity.
  - intros Heq.
    rewrite (json_dumps_ok _
               (eq_is_json _ _ Heq
                  (is_json_expected _ (is_json_rows_of _ _ Hjson Hrows)))).
    rewrite Heq. split; [reflexivity|]. cbn [snd checks].
    eexists. reflexivity.
Qed.

End Methods.

Lemma sample_titled_rows :
  Forall Spec.titled_row [Sample.header_row; Sample.utilization_row].
Proof.
  repeat constructor; try (eexists; reflexivity);
    eexists; (split; [reflexivity|]);
    repeat constructor; eexists; reflexivity.
Defined.

Lemma compare_structure_check_witness :
  Spec.equality_check_passed
    (compare_structure Sample.server Sample.grafana Sample.check_status
       (VDict [(AStr "Utilization", VList [VStr "CPU"; VStr "CPU"]);
               (AStr "Header",
                VList [VStr "Health"; VStr "Uptime"; VStr "Notes"])])
       "cluster" session0).
Proof.
  exact (proj2 (proj1
           (compare_structure_check Sample.server Sample.grafana
              Sample.check_status
              (VDict [(AStr "Utilization", VList [VStr "CPU"; VStr "CPU"]);
                      (AStr "Header",
                       VList [VStr "Health"; VStr "Uptime"; VStr "Notes"])])
              "cluster" session0 _ Sample.cluster_layout
              [Sample.header_row; Sample.utilization_row]
              eq_refl eq_refl eq_refl sample_titled_rows))
           eq_refl).
Defined.

(** C3 as stated fails: on a dashboard with two rows titled ["Row"], the
    first one holding the panel ["Bricks"], the structure that maps
    ["Row"] to the empty list passes the equality check, although it does
    not send the title of the first row to the names of its panels. *)
Lemma twin_rows_pass_with_last_row_only :
  let structure := [(AStr "Row", VList [])] in
  let first_row :=
    VDict [(AStr "title", VStr "Row");
           (AStr "panels", VList [VDict [(AStr "title", VStr "Bricks")]])] in
  Spec.rows_of Sample.twin_layout =
    Some [first_row; VDict [(AStr "title", VStr "Row");
                            (AStr "panels", VList [])]] /\
  Spec.equality_check_passed
    (compare_structure Sample.server Sample.grafana Sample.check_status
       (VDict structure) "twin" session0) /\
  Spec.row_names first_row = [VStr "Bricks"] /\
  Py.lookup (AStr (Spec.row_title first_row)) structure = Some (VList []) /\
  Py.eq (VList []) (VList (Spec.row_names first_row)) = false.
Proof.
  cbv zeta. split; [reflexivity|].
  split; [|repeat split; reflexivity].
  split; [vm_compute; reflexivity|].
  exists [(true, lit "status code should be 200");
          (true, lit "twin dashboard should not be empty")].
  vm_compute. reflexivity.
Qed.

End Structure.

(** * Further properties of [get_dashboards] and [get_dashboard] *)

Module Slugs.
Import GrafanaApi.

Lemma before_char_free (c : ascii) (s : str) : ~ In c (PyStr.before_char c s).
Proof.
  induction s as [|x s IH]; simpl; [tauto|].
  destruct (ascii_eqb x c) eqn:E; simpl; [tauto|].
  intros [H|H]; [|exact (IH H)].
  subst x. rewrite ascii_eqb_refl in E. discriminate.
Qed.

Lemma after_char_none (c : ascii) (s : str) :
  PyStr.after_char c s = None -> ~ In c s.
Proof.
  induction s as [|x s IH]; simpl; [tauto|].
  destruct (ascii_eqb x c) eqn:E; [discriminate|].
  intros H [Hx|Hin]; [|exact (IH H Hin)].
  subst x. rewrite ascii_eqb_refl in E. discriminate.
Qed.

Lemma after_char_shorter (c : ascii) (s r : str) :
  PyStr.after_char c s = Some r -> length r < length s.
Proof.
  revert r. induction s as [|x s IH]; simpl; intros r H; [discriminate|].
  destruct (ascii_eqb x c).
  - injection H as <-. lia.
  - specialize (IH r H). lia.
Qed.

(** No piece of [s.split(c)] holds the character [c]. *)
Lemma split_char_pieces (c : ascii) (s p : str) :
  In p (PyStr.split [c] s) -> ~ In c p.
Proof.
  assert (Hc : [c] <> []) by discriminate.
  remember (length s) as n eqn:L. revert s L p.
  induction n as [n IH] using lt_wf_ind. intros s L p.
  rewrite (PyStrFacts.split_eq _ s Hc), PyStrFacts.find_split_char.
  destruct (PyStr.after_char c s) as [r|] eqn:E.
  - intros [<-|Hin]; [apply before_char_free|].
    apply (IH (length r)) with (s := r); [|reflexivity|exact Hin].
    subst n. apply (after_char_shorter _ _ _ E).
  - intros [<-|[]]. apply (after_char_none _ _ E).
Qed.

(** What a comprehension returns satisfies what its expression
    guarantees. *)
Lemma comprehension_all {A B} (c : A -> result bool) (e : A -> result B)
  (P : B -> Prop) (l : list A) (out : list B) :
  (forall x y, e x = Ok y -> P y) ->
  comprehension c e l = Ok out -> Forall P out.
Proof.
  intros He. revert out. induction l as [|x l IH]; intros out H.
  - injection H as <-. constructor.
  - cbn [comprehension] in H.
    destruct (c x) as [[|]|err]; cbn [rbind] in H; try discriminate.
    + destruct (e x) as [y|err] eqn:Ey; cbn [rbind] in H; [|discriminate].
      destruct (comprehension c e l) as [r|err]; cbn [rbind] in H;
        [|discriminate].
      injection H as <-. constructor; [exact (He x y Ey)|].
      apply IH. reflexivity.
    + apply IH. exact H.
Qed.

(** A comprehension ends with the first failure of its condition or of
    its expression. *)
Lemma comprehension_stops {A B} (c : A -> result bool) (e : A -> result B)
  (pre post : list A) (x : A) (out : list B) (err : exn) :
  comprehension c e pre = Ok out ->
  (c x = Err err \/ (c x = Ok true /\ e x = Err err)) ->
  comprehension c e (pre ++ x :: post) = Err err.
Proof.
  intros Hpre Hx. revert out Hpre.
  induction pre as [|y pre IH]; intros out Hpre.
  - cbn [app comprehension].
    destruct Hx as [->|[-> ->]]; reflexivity.
  - cbn [app comprehension] in *.
    destruct (c y) as [[|]|err']; cbn [rbind] in *; try discriminate.
    + destruct (e y) as [z|err']; cbn [rbind] in *; [|discriminate].
      destruct (comprehension c e pre) as [r|err']; cbn [rbind] in *;
        [|discriminate].
      rewrite (IH r eq_refl). reflexivity.
    + apply (IH out). exact Hpre.
Qed.

Section Methods.

Variable server : str.
Variable http : str -> result response.
Variable check_response :
  response -> list (bool * str) -> result unit * list (bool * str).

(** Whatever the search endpoint answers, no slug [get_dashboards]
    returns holds a [/]: each one is a single path segment. *)
Theorem slugs_hold_no_slash (st : session) (slugs : list str) :
  fst (get_dashboards server http check_response st) = Ok slugs ->
  Forall (fun slug => ~ In "/"%char slug) slugs.
Proof.
  unfold get_dashboards, bind, requests_get, self_check_response, lift.
  destruct (http (server ++ lit "search")) as [r|e]; [|discriminate].
  cbn [checks gets].
  destruct (check_response r (checks st)) as [[u|e] cs]; [|discriminate].
  destruct (response_json r) as [j|e]; [|discriminate].
  cbn [fst]. destruct (Py.iter j) as [l|e]; [|discriminate].
  cbn [rbind]. apply comprehension_all.
  intros x y. destruct (Py.getitem x "uri") as [u'|e]; [|discriminate].
  cbn [rbind]. destruct (Py.str_method u') as [w|e]; [|discriminate].
  cbn [rbind]. unfold index.
  destruct (nth_error (PyStr.split "/" w) 1) as [z|] eqn:E; [|discriminate].
  intros H. injection H as <-.
  apply (split_char_pieces "/"%char w). apply (nth_error_In _ _ E).
Qed.

(** The run of [get_dashboards] once the search endpoint has answered
    with an array and the response check has returned. *)
Lemma get_dashboards_run (st : session) (r : response)
  (cs : list (bool * str)) (entries : list value) :
  http (server ++ lit "search") = Ok r ->
  check_response r (checks st) = (Ok tt, cs) ->
  body r = Some (VList entries) ->
  fst (get_dashboards server http check_response st) =
  comprehension
    (fun dashboard =>
       (t <- Py.getitem dashboard "type" ;;
        Ok (Py.eq t (VStr "dash-db")))%result)
    (fun dashboard =>
       (u <- Py.getitem dashboard "uri" ;;
        u <- Py.str_method u ;;
        index (PyStr.split "/" u) 1)%result)
    entries.
Proof.
  intros Hget Hcheck Hbody.
  unfold get_dashboards, bind, requests_get, self_check_response, lift.
  rewrite Hget. cbn [checks gets]. rewrite Hcheck.
  unfold response_json. rewrite Hbody. reflexivity.
Qed.

(** A hit without a ["type"] key ends [get_dashboards] with a
    [KeyError], whatever follows it in the array. *)
Theorem hit_without_type_raises (st : session) (r : response)
  (cs : list (bool * str)) (pre post : list value)
  (hit : list (atom * value)) :
  http (server ++ lit "search") = Ok r ->
  check_response r (checks st) = (Ok tt, cs) ->
  body r = Some (VList (pre ++ VDict hit :: post)) ->
  Forall Spec.search_hit pre ->
  Py.lookup (AStr "type") hit = None ->
  fst (get_dashboards server http check_response st) =
  Err (KeyError (AStr "type")).
Proof.
  intros Hget Hcheck Hbody Hpre Hno.
  rewrite (get_dashboards_run _ _ _ _ Hget Hcheck Hbody).
  apply (comprehension_stops _ _ pre post (VDict hit) _ _
           (Fetch.hit_slugs pre Hpre)).
  left. cbn [Py.getitem]. rewrite Hno. reflexivity.
Qed.

(** A dashboard hit whose ["uri"] holds no [/] ends [get_dashboards]
    with an [IndexError]: [split("/")] has a single element. *)
Theorem uri_without_slash_raises (st : session) (r : response)
  (cs : list (bool * str)) (pre post : list value) (hit : value)
  (u : str) :
  http (server ++ lit "search") = Ok r ->
  check_response r (checks st) = (Ok tt, cs) ->
  body r = Some (VList (pre ++ hit :: post)) ->
  Forall Spec.search_hit pre ->
  Spec.is_dash_db hit = true ->
  Spec.uri hit = Some u ->
  ~ In "/"%char u ->
  fst (get_dashboards server http check_response st) = Err IndexError.
Proof.
  intros Hget Hcheck Hbody Hpre Hdb Hu Hno.
  rewrite (get_dashboards_run _ _ _ _ Hget Hcheck Hbody).
  apply (comprehension_stops _ _ pre post hit _ _
           (Fetch.hit_slugs pre Hpre)).
  right.
  unfold Spec.is_dash_db in Hdb.
  destruct (Spec.field "type" hit) as [t|] eqn:Et; [|discriminate].
  rewrite (Fetch.field_getitem _ _ _ Et). cbn [rbind]. rewrite Hdb.
  split; [reflexivity|].
  unfold Spec.uri in Hu.
  destruct (Spec.field "uri" hit) as [[[| | |u']| |]|] eqn:Eu;
    try discriminate.
  injection Hu as ->.
  rewrite (Fetch.field_getitem _ _ _ Eu). cbn [rbind Py.str_method].
  unfold index. change (lit "/") with ["/"%char].
  rewrite PyStrFacts.split_char_second.
  destruct (PyStr.after_char "/" u) as [w|] eqn:E; [|reflexivity].
  exfalso. apply Hno. clear -E.
  induction u as [|x u IH]; simpl in E; [discriminate|].
  destruct (ascii_eqb x "/") eqn:Ex.
  - left. apply ascii_eqb_true in Ex. exact Ex.
  - right. apply IH. exact E.
Qed.

(** When the request itself fails, [get_dashboard] ends with its
    exception: the GET has been issued and the response check is not
    run.  When the payload is not JSON, the call ends with the
    [ValueError] of [response.json()], after the response check. *)
Theorem get_dashboard_failures (slug : str) (st : session) :
  (forall e,
     http (server ++ lit "dashboards/db/" ++ slug) = Err e ->
     get_dashboard server http check_response slug st =
     (Err e, {| gets := gets st ++ [server ++ lit "dashboards/db/" ++ slug];
                checks := checks st |}))
  /\ (forall r cs,
        http (server ++ lit "dashboards/db/" ++ slug) = Ok r ->
        check_response r (checks st) = (Ok tt, cs) ->
        body r = None ->
        get_dashboard server http check_response slug st =
        (Err ValueError,
         {| gets := gets st ++ [server ++ lit "dashboards/db/" ++ slug];
            checks := cs |})).
Proof.
  unfold get_dashboard, bind, requests_get, self_check_response, lift.
  split.
  - intros e ->. reflexivity.
  - intros r cs -> Hcheck Hbody. cbn [checks gets]. rewrite Hcheck.
    unfold response_json. rewrite Hbody. reflexivity.
Qed.

End Methods.

Lemma slugs_hold_no_slash_witness :
  Forall (fun slug => ~ In "/"%char slug) [lit "cluster"; lit "twin"].
Proof.
  exact (slugs_hold_no_slash Sample.server Sample.grafana
           Sample.check_status session0 [lit "cluster"; lit "twin"]
           eq_refl).
Defined.

Lemma one_search_hit :
  Forall Spec.search_hit
    [VDict [(AStr "type", VStr "dash-db"); (AStr "uri", VStr "db/cluster")]].
Proof.
  repeat constructor; [eexists; reflexivity|].
  intros _. do 2 eexists. split; reflexivity.
Defined.

Lemma hit_without_type_raises_witness :
  fst (get_dashboards Sample.server
         (fun _ =>
            Ok {| status_code := 200;
                  body := Some (VList [VDict [(AStr "type", VStr "dash-db");
                                              (AStr "uri", VStr "db/cluster")];
                                       VDict [(AStr "uri", VStr "db/twin")];
                                       VInt 7]) |})
         Sample.check_status session0) =
  Err (KeyError (AStr "type")).
Proof.
  exact (hit_without_type_raises Sample.server _ Sample.check_status
           session0
           {| status_code := 200;
              body := Some (VList [VDict [(AStr "type", VStr "dash-db");
                                          (AStr "uri", VStr "db/cluster")];
                                   VDict [(AStr "uri", VStr "db/twin")];
                                   VInt 7]) |}
           [(true, lit "status code should be 200")]
           [VDict [(AStr "type", VStr "dash-db");
                   (AStr "uri", VStr "db/cluster")]]
           [VInt 7] [(AStr "uri", VStr "db/twin")]
           eq_refl eq_refl eq_refl one_search_hit eq_refl).
Defined.

Lemma uri_without_slash_raises_witness :
  fst (get_dashboards Sample.server
         (fun _ =>
            Ok {| status_code := 200;
                  body := Some (VList [VDict [(AStr "type", VStr "dash-db");
                                              (AStr "uri", VStr "db/cluster")];
                                       VDict [(AStr "type", VStr "dash-db");
                                              (AStr "uri", VStr "twin")]]) |})
         Sample.check_status session0) =
  Err IndexError.
Proof.
  refine (uri_without_slash_raises Sample.server _ Sample.check_status
            session0
            {| status_code := 200;
               body := Some (VList [VDict [(AStr "type", VStr "dash-db");
                                           (AStr "uri", VStr "db/cluster")];
                                    VDict [(AStr "type", VStr "dash-db");
                                           (AStr "uri", VStr "twin")]]) |}
            [(true, lit "status code should be 200")]
            [VDict [(AStr "type", VStr "dash-db");
                    (AStr "uri", VStr "db/cluster")]]
            []
            (VDict [(AStr "type", VStr "dash-db"); (AStr "uri", VStr "twin")])
            "twin"
            eq_refl eq_refl eq_refl one_search_hit eq_refl eq_refl _).
  simpl. intuition discriminate.
Defined.

Lemma get_dashboard_failures_witness :
  get_dashboard Sample.server (fun _ => Err RequestException)
    Sample.check_status "cluster" session0 =
  (Err RequestException,
   {| gets := [lit "http://grafana:3000/api/dashboards/db/cluster"];
      checks := [] |}).
Proof.
  exact (proj1 (get_dashboard_failures Sample.server
                  (fun _ => Err RequestException) Sample.check_status
                  "cluster" session0)
           RequestException eq_refl).
Defined.

End Slugs.

(** * Further properties of [get_panel] *)

Module PanelFacts.
Import GrafanaApi.

Lemma title_type_is_other_title (title type : str)
  (d : list (atom * value)) :
  Spec.has_title title (VDict d) = false ->
  title_type_is title type (VDict d) = Ok false.
Proof.
  intros H. unfold title_type_is. rewrite Panel.title_is_dict, H.
  reflexivity.
Qed.

(** The filter of [get_panel] when the panels whose title matches have a
    ["type"]: the other panels are not asked for theirs. *)
Lemma found_panels_short_circuit (title : str) (panel_type : option str)
  (panels : list value) :
  Forall (fun p => Spec.is_dict p /\
                   (Spec.has_title title p = true ->
                    exists t, Spec.field "type" p = Some t)) panels ->
  found_panels title panel_type panels =
  Ok (filter (Spec.panel_matches title panel_type) panels).
Proof.
  intros H. unfold found_panels, Spec.panel_matches.
  destruct (given panel_type) as [type|].
  - apply Panel.comprehension_filter.
    apply Forall_impl with (2 := H). intros x [[d ->] Ht].
    destruct (Spec.has_title title (VDict d)) eqn:E.
    + destruct (Ht eq_refl) as [t Hty].
      rewrite (Panel.title_type_is_typed _ _ _ t Hty), E. reflexivity.
    + apply title_type_is_other_title. exact E.
  - rewrite (filter_ext _ (Spec.has_title title))
      by (intros x; apply andb_true_r).
    apply Panel.found_rows_dicts.
    apply Forall_impl with (2 := H). intros x [Hd _]. exact Hd.
Qed.

Section Methods.

Variable server : str.
Variable http : str -> result response.
Variable check_response :
  response -> list (bool * str) -> result unit * list (bool * str).

(** [get_panel] looks at the ["type"] of a panel only when its title is
    the requested one: in the single row with the requested title, panels
    of another title may lack a ["type"] and the call still returns the
    single matching panel, or fails its assertion when the matching
    panels are not exactly one. *)
Theorem type_read_on_matching_titles_only
  (panel_title row_title dashboard : str) (panel_type : option str)
  (st st1 : session) (layout row : value) (rows panels : list value) :
  get_dashboard server http check_response dashboard st = (Ok layout, st1) ->
  Spec.rows_of layout = Some rows ->
  Forall Spec.is_dict rows ->
  filter (Spec.has_title row_title) rows = [row] ->
  Spec.panels_of row = Some panels ->
  Forall (fun p => Spec.is_dict p /\
                   (Spec.has_title panel_title p = true ->
                    exists t, Spec.field "type" p = Some t)) panels ->
  fst (get_panel server http check_response
         panel_title row_title dashboard panel_type st) =
  match filter (Spec.panel_matches panel_title panel_type) panels with
  | [p] => Ok p
  | _ => Err AssertionError
  end.
Proof.
  intros Hdash Hrows Hdicts Hrow Hpanels Hshort.
  rewrite (Panel.get_panel_run server http check_response
             _ _ _ _ _ _ _ Hdash).
  cbn [fst].
  rewrite (Panel.find_panel_rows_of _ _ _ _ _ Hrows Hdicts), Hrow.
  rewrite (Panel.panels_of_row _ _ Hpanels). cbn [rbind].
  rewrite (found_panels_short_circuit _ _ _ Hshort). cbn [rbind].
  apply Panel.one_or_assertion.
Qed.

(** The panel [get_panel] returns has a ["title"] equal to the requested
    title and, when a non-empty [panel_type] was given, a ["type"] equal
    to it: [get_panel_chart_targets] can read the title of that panel. *)
Theorem returned_panel_has_title_and_type
  (panel_title row_title dashboard : str) (panel_type : option str)
  (st : session) (p : value) :
  fst (get_panel server http check_response
         panel_title row_title dashboard panel_type st) = Ok p ->
  (exists t, Py.getitem p "title" = Ok t /\
             Py.eq t (VStr panel_title) = true)
  /\ (forall type,
        given panel_type = Some type ->
        exists t, Py.getitem p "type" = Ok t /\ Py.eq t (VStr type) = true).
Proof.
  unfold get_panel, bind.
  destruct (get_dashboard server http check_response dashboard st)
    as [[layout|e] st1]; [|discriminate].
  unfold lift. cbn [fst]. intros H.
  destruct (Panel.find_panel_ok _ _ _ _ _ H)
    as [rows [row [panels [_ [_ [_ Hp]]]]]].
  assert (Hin : In p (filter (Spec.panel_matches panel_title panel_type)
                         panels)) by (rewrite Hp; left; reflexivity).
  apply filter_In in Hin. destruct Hin as [_ Hm].
  unfold Spec.panel_matches in Hm. apply andb_true_iff in Hm.
  destruct Hm as [Ht Hty]. split.
  - unfold Spec.has_title in Ht.
    destruct (Spec.field "title" p) as [t|] eqn:E; [|discriminate].
    exists t. split; [apply (Fetch.field_getitem _ _ _ E)|exact Ht].
  - intros type Hg. rewrite Hg in Hty. unfold Spec.has_type in Hty.
    destruct (Spec.field "type" p) as [t|] eqn:E; [|discriminate].
    exists t. split; [apply (Fetch.field_getitem _ _ _ E)|exact Hty].
Qed.

(** A layout that is [null], a boolean or a number has no length:
    [get_panel] ends with a [TypeError] instead of an assertion error,
    and [compare_structure] ends with it before recording any check. *)
Theorem layout_without_length (a : atom) (slug : str) (st st1 : session) :
  get_dashboard server http check_response slug st = (Ok (VAtom a), st1) ->
  Py.is_str_key a = false ->
  (forall panel_title row_title panel_type,
     fst (get_panel server http check_response
            panel_title row_title slug panel_type st) = Err TypeError)
  /\ (forall structure,
        compare_structure server http check_response structure slug st =
        (Err TypeError, st1)).
Proof.
  intros Hdash Ha. split.
  - intros panel_title row_title panel_type.
    rewrite (Panel.get_panel_run server http check_response
               _ _ _ _ _ _ _ Hdash).
    destruct a; try discriminate; reflexivity.
  - intros structure. unfold compare_structure, bind. rewrite Hdash.
    destruct a; try discriminate; reflexivity.
Qed.

End Methods.

Lemma type_read_on_matching_titles_only_witness :
  fst (get_panel Sample.server Sample.grafana Sample.check_status
         "Health" "Header" "cluster" (Some (lit "singlestat")) session0) =
  Ok (VDict [(AStr "title", VStr "Health");
             (AStr "type", VStr "singlestat")]).
Proof.
  refine (type_read_on_matching_titles_only Sample.server Sample.grafana
            Sample.check_status "Health" "Header" "cluster"
            (Some (lit "singlestat")) session0 _ Sample.cluster_layout
            Sample.header_row
            [Sample.header_row; Sample.utilization_row]
            [VDict [(AStr "title", VStr "Health");
                    (AStr "type", VStr "singlestat")];
             VDict [(AStr "title", VStr "");
                    (AStr "displayName", VStr "Uptime");
                    (AStr "type", VStr "singlestat")];
             VDict [(AStr "title", VStr "Notes")]]
            eq_refl eq_refl Panel.sample_rows_dicts eq_refl eq_refl _).
  repeat constructor; try (eexists; reflexivity);
    intros H; try discriminate H; eexists; reflexivity.
Defined.

Lemma returned_panel_has_title_and_type_witness :
  exists t,
    Py.getitem (VDict [(AStr "title", VStr "CPU");
                       (AStr "type", VStr "graph")]) "title" = Ok t /\
    Py.eq t (VStr "CPU") = true.
Proof.
  exact (proj1 (returned_panel_has_title_and_type Sample.server
                  Sample.grafana Sample.check_status
                  "CPU" "Utilization" "cluster" (Some (lit "graph"))
                  session0 _ eq_refl)).
Defined.

Lemma layout_without_length_witness :
  compare_structure Sample.server
    (fun _ => Ok {| status_code := 200; body := Some VNone |})
    Sample.check_status (VDict []) "cluster" session0 =
  (Err TypeError,
   {| gets := [lit "http://grafana:3000/api/dashboards/db/cluster"];
      checks := [(true, lit "status code should be 200")] |}).
Proof.
  exact (proj2 (layout_without_length Sample.server
                  (fun _ => Ok {| status_code := 200; body := Some VNone |})
                  Sample.check_status ANone "cluster" session0 _
                  eq_refl eq_refl)
           (VDict [])).
Defined.

End PanelFacts.

(** * Further properties of the pieces of a target *)

Module Pieces.
Import GrafanaApi.

Lemma find_split_absent (d : ascii) (w s : str) :
  ~ In d s -> PyStr.find_split (d :: w) s = None.
Proof.
  induction s as [|x s IH]; intros H; [reflexivity|].
  rewrite PyStrFacts.find_split_cons.
  assert (Hx : ascii_eqb d x = false).
  { destruct (ascii_eqb d x) eqn:E; [|reflexivity].
    apply ascii_eqb_true in E. subst x. exfalso. apply H. left.
    reflexivity. }
  cbn [PyStr.startswith]. rewrite Hx. cbn [andb].
  rewrite IH by (intros Hin; apply H; right; exact Hin). reflexivity.
Qed.

Lemma replace_absent_char (d : ascii) (w new s : str) :
  ~ In d s -> PyStr.replace (d :: w) new s = s.
Proof.
  intros H. apply PyStrFacts.replace_absent. unfold PyStr.contains.
  rewrite (find_split_absent d w s H). reflexivity.
Qed.

(** A target without [$] holds no placeholder: whatever the host name,
    the cluster identifier and the volume name, the queries are those of
    the target as it is. *)
Theorem target_without_dollar_unchanged (h c v t : str) :
  ~ In "$"%char t ->
  target_queries h c v (VStr t) =
  Ok (target_output (PyStr.split ", " t)).
Proof.
  intros H. rewrite ChartTargets.target_queries_str.
  unfold Spec.host_pass, Spec.volume_pass, Spec.cluster_pass.
  change (lit "$cluster_id") with ("$"%char :: lit "cluster_id").
  change (lit "$volume_name") with ("$"%char :: lit "volume_name").
  change (lit "$host_name") with ("$"%char :: lit "host_name").
  rewrite (replace_absent_char _ _ c t H).
  rewrite (replace_absent_char _ _ v t H).
  rewrite (replace_absent_char _ _ _ t H). reflexivity.
Qed.

Lemma target_without_dollar_unchanged_witness :
  target_queries "n1.example.com" "c7" "vol"
    (VStr "sumSeries(tendrl.clusters.cpu), tendrl.{a,b}") =
  Ok [lit "tendrl.clusters.cpu"; lit "tendrl.a"; lit "tendrl.b"].
Proof.
  refine (target_without_dollar_unchanged "n1.example.com" "c7" "vol"
            "sumSeries(tendrl.clusters.cpu), tendrl.{a,b}" _).
  simpl. intuition discriminate.
Defined.

(** ** The function wrapper *)

Lemma rfind_split_char (c : ascii) (s : str) :
  option_map snd (PyStr.rfind_split [c] s) = Spec.after_last c s.
Proof.
  induction s as [|x s IH]; [reflexivity|].
  cbn [PyStr.rfind_split Spec.after_last]. rewrite <- IH.
  destruct (PyStr.rfind_split [c] s) as [[a b]|]; [reflexivity|].
  cbn [option_map PyStr.startswith].
  rewrite andb_true_r, (PyStrFacts.ascii_eqb_sym c x).
  destruct (ascii_eqb x c); reflexivity.
Qed.

Lemma split1_char_first (c : ascii) (s : str) :
  nth 0 (PyStr.split1 [c] s) [] = PyStr.before_char c s.
Proof.
  unfold PyStr.split1. rewrite PyStrFacts.find_split_char.
  destruct (PyStr.after_char c s) eqn:E; [reflexivity|].
  rewrite (PyStrFacts.before_char_all _ _ E). reflexivity.
Qed.

Lemma strip_call_argument (t : str) : strip_call t = Spec.call_argument t.
Proof.
  unfold strip_call, Spec.call_argument.
  change (lit ")") with [")"%char]. rewrite split1_char_first. f_equal.
  change (lit "(") with ["("%char].
  rewrite <- (rfind_split_char "("%char t).
  unfold PyStr.rsplit1.
  destruct (PyStr.rfind_split ["("%char] t) as [[a b]|]; reflexivity.
Qed.

Lemma after_last_none (c : ascii) (s : str) :
  Spec.after_last c s = None -> ~ In c s.
Proof.
  induction s as [|x s IH]; simpl; [tauto|].
  destruct (Spec.after_last c s); [discriminate|].
  destruct (ascii_eqb x c) eqn:E; [discriminate|].
  intros _ [Hx|Hin]; [|exact (IH eq_refl Hin)].
  subst x. rewrite ascii_eqb_refl in E. discriminate.
Qed.

Lemma after_last_free (c : ascii) (s r : str) :
  Spec.after_last c s = Some r -> ~ In c r.
Proof.
  revert r. induction s as [|x s IH]; simpl; intros r H; [discriminate|].
  destruct (Spec.after_last c s) as [r'|] eqn:E.
  - injection H as <-. apply IH. reflexivity.
  - destruct (ascii_eqb x c); [|discriminate].
    injection H as <-. apply (after_last_none _ _ E).
Qed.

Lemma before_char_chars (c y : ascii) (s : str) :
  In y (PyStr.before_char c s) -> In y s.
Proof.
  induction s as [|x s IH]; simpl; [tauto|].
  destruct (ascii_eqb x c); simpl; [tauto|].
  intros [H|H]; [left; exact H|right; apply IH; exact H].
Qed.

Lemma call_argument_no_parenthesis (t : str) :
  ~ In "("%char (Spec.call_argument t) /\
  ~ In ")"%char (Spec.call_argument t).
Proof.
  unfold Spec.call_argument. split; [|apply Slugs.before_char_free].
  intros H. apply before_char_chars in H.
  destruct (Spec.after_last "(" t) as [r|] eqn:E.
  - exact (after_last_free _ _ _ E H).
  - exact (after_last_none _ _ E H).
Qed.

Lemma after_last_in (c : ascii) (s r : str) :
  Spec.after_last c s = Some r -> In c s.
Proof.
  revert r. induction s as [|x s IH]; simpl; intros r H; [discriminate|].
  destruct (Spec.after_last c s) as [r'|].
  - right. apply (IH r'). reflexivity.
  - destruct (ascii_eqb x c) eqn:E; [|discriminate].
    left. apply ascii_eqb_true. exact E.
Qed.

Lemma after_char_absent (c : ascii) (s : str) :
  ~ In c s -> PyStr.after_char c s = None.
Proof.
  induction s as [|x s IH]; simpl; intros H; [reflexivity|].
  destruct (ascii_eqb x c) eqn:E.
  - apply ascii_eqb_true in E. exfalso. apply H. left. exact E.
  - apply IH. intros Hin. apply H. right. exact Hin.
Qed.

(** [strip_call] keeps the text between the last opening parenthesis of
    the piece and the next closing one, hence a text without parenthesis
    that it leaves as it is when applied again. *)
Theorem strip_call_innermost_argument (t : str) :
  strip_call t = Spec.call_argument t
  /\ strip_call (strip_call t) = strip_call t.
Proof.
  split; [apply strip_call_argument|].
  rewrite !strip_call_argument.
  destruct (call_argument_no_parenthesis t) as [Ho Hc].
  unfold Spec.call_argument at 1.
  destruct (Spec.after_last "(" (Spec.call_argument t)) as [r|] eqn:E.
  - exfalso. apply Ho. apply (after_last_in _ _ _ E).
  - apply PyStrFacts.before_char_all. apply after_char_absent. exact Hc.
Qed.

(** ** The characters of the queries *)

Lemma rfind_split_some (sep s a b : str) :
  PyStr.rfind_split sep s = Some (a, b) -> s = a ++ sep ++ b.
Proof.
  revert a b. induction s as [|x s IH]; intros a b H.
  - cbn [PyStr.rfind_split] in H. destruct sep; [|discriminate].
    injection H as <- <-. reflexivity.
  - cbn [PyStr.rfind_split] in H.
    destruct (PyStr.rfind_split sep s) as [[a' b']|].
    + injection H as <- <-. simpl. f_equal. apply IH. reflexivity.
    + destruct (PyStr.startswith sep (x :: s)) eqn:E; [|discriminate].
      injection H as <- <-. exact (PyStrFacts.startswith_true _ _ E).
Qed.

Lemma split_pieces_chars (sep : str) (y : ascii) (s p : str) :
  sep <> [] -> In p (PyStr.split sep s) -> In y p -> In y s.
Proof.
  intros Hsep. remember (length s) as n eqn:L. revert s L p.
  induction n as [n IH] using lt_wf_ind. intros s L p.
  rewrite (PyStrFacts.split_eq _ s Hsep).
  destruct (PyStr.find_split sep s) as [[a b]|] eqn:E.
  - pose proof (PyStrFacts.find_split_shorter _ _ _ _ Hsep E) as Hlt.
    apply PyStrFacts.find_split_some in E.
    intros [<-|Hin] Hy; rewrite E.
    + apply in_or_app. left. exact Hy.
    + apply in_or_app. right. apply in_or_app. right.
      apply (IH (length b)) with (p := p); [lia|reflexivity|exact Hin|exact Hy].
  - intros [<-|[]] Hy. exact Hy.
Qed.

(** A query is made of characters of the stripped piece and of dots. *)
Lemma piece_output_chars (t q : str) (y : ascii) :
  In q (piece_output t) -> In y q ->
  y = "."%char \/ In y (strip_call t).
Proof.
  unfold piece_output, split_options, PyStr.rsplit1.
  destruct (PyStr.rfind_split ".{" (strip_call t)) as [[a b]|] eqn:E.
  - apply rfind_split_some in E.
    assert (Ha : forall z, In z a -> In z (strip_call t)).
    { intros z Hz. rewrite E. apply in_or_app. left. exact Hz. }
    assert (Hb : forall z, In z b -> In z (strip_call t)).
    { intros z Hz. rewrite E. apply in_or_app. right.
      apply in_or_app. right. exact Hz. }
    destruct b as [|c o].
    + destruct (PyStr.startswith "tendrl." a); [|intros []].
      intros [<-|[]] Hy. right. apply Ha. exact Hy.
    + intros Hq Hy. apply in_map_iff in Hq. destruct Hq as [x [<- Hx]].
      unfold construct_target in Hy.
      apply in_app_or in Hy. destruct Hy as [Hy|Hy];
        [right; apply Ha; exact Hy|].
      apply in_app_or in Hy. destruct Hy as [[<-|[]]|Hy];
        [left; reflexivity|].
      right. apply Hb.
      change (lit "}") with ["}"%char] in Hy.
      rewrite split1_char_first in Hy. apply before_char_chars in Hy.
      apply (split_pieces_chars (lit ",") y (c :: o) x);
        [discriminate|exact Hx|exact Hy].
  - destruct (PyStr.startswith "tendrl." (strip_call t)); [|intros []].
    intros [<-|[]] Hy. right. exact Hy.
Qed.

(** No query of the result holds a parenthesis: the function wrappers of
    the targets never reach the output. *)
Theorem queries_hold_no_parenthesis (targets_split : list str) (q : str) :
  In q (target_output targets_split) ->
  ~ In "("%char q /\ ~ In ")"%char q.
Proof.
  unfold target_output. intros H. apply in_flat_map in H.
  destruct H as [t [_ Hq]].
  destruct (call_argument_no_parenthesis t) as [Ho Hc].
  rewrite <- strip_call_argument in Ho, Hc.
  split; intros Hy;
    destruct (piece_output_chars t q _ Hq Hy) as [Hd|Hin];
    try discriminate Hd; [exact (Ho Hin)|exact (Hc Hin)].
Qed.

Lemma queries_hold_no_parenthesis_witness :
  ~ In "("%char (lit "tendrl.n1.cpu.user") /\
  ~ In ")"%char (lit "tendrl.n1.cpu.user").
Proof.
  refine (queries_hold_no_parenthesis
            [lit "alias(sumSeries(tendrl.n1.cpu.{user,system})"; lit "'x')"]
            (lit "tendrl.n1.cpu.user") _).
  left. reflexivity.
Defined.

(** ** The options block *)

Lemma find_split_absent_second (d1 d2 : ascii) (w s : str) :
  ~ In d2 s -> PyStr.find_split (d1 :: d2 :: w) s = None.
Proof.
  induction s as [|x s IH]; intros H; [reflexivity|].
  rewrite PyStrFacts.find_split_cons.
  assert (Hs : PyStr.startswith (d2 :: w) s = false).
  { destruct s as [|z s']; [reflexivity|]. cbn [PyStr.startswith].
    destruct (ascii_eqb d2 z) eqn:E; [|reflexivity].
    apply ascii_eqb_true in E. subst z. exfalso. apply H. right. left.
    reflexivity. }
  change (PyStr.startswith (d1 :: d2 :: w) (x :: s))
    with (ascii_eqb d1 x && PyStr.startswith (d2 :: w) s).
  rewrite Hs, andb_false_r.
  rewrite IH by (intros Hin; apply H; right; exact Hin). reflexivity.
Qed.

(** The last [.{] of a text that holds no brace after it. *)
Lemma rfind_split_options (a b : str) :
  ~ In "{"%char b ->
  PyStr.rfind_split ".{" (a ++ lit ".{" ++ b) = Some (a, b).
Proof.
  intros H.
  assert (Hb : PyStr.rfind_split ".{" b = None).
  { apply PyStrFacts.rfind_split_none.
    apply (find_split_absent_second "."%char "{"%char [] b H). }
  induction a as [|x a IH].
  - change ([] ++ lit ".{" ++ b) with ("."%char :: "{"%char :: b).
    cbn [PyStr.rfind_split]. rewrite Hb. reflexivity.
  - change ((x :: a) ++ lit ".{" ++ b) with (x :: (a ++ lit ".{" ++ b)).
    cbn [PyStr.rfind_split]. rewrite IH. reflexivity.
Qed.

(** An options block that is empty counts as no options: the text before
    it is kept when it starts with [tendrl.], and the piece adds nothing
    otherwise. *)
Theorem empty_options_block_ignored (t a : str) :
  strip_call t = a ++ lit ".{" ->
  piece_output t = if PyStr.startswith "tendrl." a then [a] else [].
Proof.
  intros H. unfold piece_output, split_options, PyStr.rsplit1.
  rewrite H.
  pose proof (rfind_split_options a [] (fun x => x)) as E.
  rewrite app_nil_r in E. rewrite E. reflexivity.
Qed.

Lemma empty_options_block_ignored_witness :
  piece_output "sumSeries(tendrl.cpu.{)" = [lit "tendrl.cpu"].
Proof.
  exact (empty_options_block_ignored "sumSeries(tendrl.cpu.{)"
           "tendrl.cpu" eq_refl).
Defined.

Lemma after_last_absent (c : ascii) (s : str) :
  ~ In c s -> Spec.after_last c s = None.
Proof.
  intros H. destruct (Spec.after_last c s) as [r|] eqn:E; [|reflexivity].
  exfalso. apply H. apply (after_last_in _ _ _ E).
Qed.

Lemma before_char_id (c : ascii) (o : str) :
  ~ In c o -> PyStr.before_char c o = o.
Proof.
  intros H. apply PyStrFacts.before_char_all. apply after_char_absent.
  exact H.
Qed.

Lemma before_char_app (c : ascii) (o r : str) :
  ~ In c o -> PyStr.before_char c (o ++ c :: r) = o.
Proof.
  induction o as [|x o IH]; intros H; simpl.
  - rewrite ascii_eqb_refl. reflexivity.
  - destruct (ascii_eqb x c) eqn:E.
    + apply ascii_eqb_true in E. exfalso. apply H. left. exact E.
    + f_equal. apply IH. intros Hin. apply H. right. exact Hin.
Qed.

Lemma after_char_app (c : ascii) (o r : str) :
  ~ In c o -> PyStr.after_char c (o ++ c :: r) = Some r.
Proof.
  induction o as [|x o IH]; intros H; simpl.
  - rewrite ascii_eqb_refl. reflexivity.
  - destruct (ascii_eqb x c) eqn:E.
    + apply ascii_eqb_true in E. exfalso. apply H. left. exact E.
    + apply IH. intros Hin. apply H. right. exact Hin.
Qed.

Lemma in_joined (sep : str) (parts : list str) (y : ascii) :
  In y (Spec.joined sep parts) ->
  In y sep \/ exists p, In p parts /\ In y p.
Proof.
  induction parts as [|p [|p' parts] IH]; [intros []| |].
  - intros H. right. exists p. split; [left; reflexivity|exact H].
  - change (Spec.joined sep (p :: p' :: parts))
      with (p ++ sep ++ Spec.joined sep (p' :: parts)).
    intros H. apply in_app_or in H. destruct H as [H|H].
    + right. exists p. split; [left; reflexivity|exact H].
    + apply in_app_or in H. destruct H as [H|H]; [left; exact H|].
      destruct (IH H) as [Hs|[q [Hq Hy]]]; [left; exact Hs|].
      right. exists q. split; [right; exact Hq|exact Hy].
Qed.

(** Cutting the options at the commas and each one at the brace gives
    the options back. *)
Lemma split_options_block (opts : list str) :
  opts <> [] ->
  Forall (fun o => ~ In ","%char o /\ ~ In "}"%char o) opts ->
  map (PyStr.before_char "}")
      (PyStr.split [","%char] (Spec.joined [","%char] opts ++ ["}"%char])) =
  opts.
Proof.
  assert (Hc : [","%char] <> []) by discriminate.
  induction opts as [|o [|o' opts] IH]; intros Hne H; [congruence| |].
  - inversion H as [|? ? [Hcomma Hbrace] _]; subst.
    cbn [Spec.joined].
    rewrite (PyStrFacts.split_eq _ _ Hc), PyStrFacts.find_split_char.
    rewrite after_char_absent.
    + cbn [map]. rewrite before_char_app by exact Hbrace. reflexivity.
    + intros Hin. apply in_app_or in Hin.
      destruct Hin as [Hin|[Hin|[]]]; [exact (Hcomma Hin)|discriminate].
  - inversion H as [|? ? [Hcomma Hbrace] Hrest]; subst.
    change (Spec.joined [","%char] (o :: o' :: opts) ++ ["}"%char])
      with ((o ++ [","%char] ++ Spec.joined [","%char] (o' :: opts))
            ++ ["}"%char]).
    rewrite <- !app_assoc.
    change ([","%char] ++ Spec.joined [","%char] (o' :: opts) ++ ["}"%char])
      with (","%char :: (Spec.joined [","%char] (o' :: opts) ++ ["}"%char])).
    rewrite (PyStrFacts.split_eq _ _ Hc), PyStrFacts.find_split_char.
    rewrite (after_char_app _ _ _ Hcomma), (before_char_app _ _ _ Hcomma).
    cbn [map]. rewrite (before_char_id _ _ Hbrace).
    rewrite IH; [reflexivity|discriminate|exact Hrest].
Qed.

(** A piece [root.{a,b,...}] without function wrapper yields one query
    per option, [root.a], [root.b], ..., in order. *)
Theorem options_block_expands (root : str) (opts : list str) :
  Spec.free ["("%char; ")"%char] root ->
  opts <> [] ->
  Forall (Spec.free ["("%char; ")"%char; "{"%char; "}"%char; ","%char])
         opts ->
  piece_output (root ++ lit ".{" ++ Spec.joined "," opts ++ lit "}") =
  map (fun o => root ++ lit "." ++ o) opts.
Proof.
  intros Hroot Hne Hopts.
  assert (Hfree : forall y,
             In y ["("%char; ")"%char; "{"%char] ->
             ~ In y (Spec.joined "," opts ++ lit "}")).
  { intros y Hy Hin. apply in_app_or in Hin.
    destruct Hin as [Hin|[<-|[]]].
    - apply in_joined in Hin. destruct Hin as [[<-|[]]|[p [Hp Hyp]]].
      + destruct Hy as [Hy|[Hy|[Hy|[]]]]; discriminate Hy.
      + rewrite Forall_forall in Hopts. apply (Hopts p Hp y); [|exact Hyp].
        destruct Hy as [<-|[<-|[<-|[]]]]; simpl; tauto.
    - destruct Hy as [Hy|[Hy|[Hy|[]]]]; discriminate Hy. }
  assert (Hwhole : forall y,
             In y ["("%char; ")"%char] ->
             ~ In y (root ++ lit ".{" ++ Spec.joined "," opts ++ lit "}")).
  { intros y Hy Hin. apply in_app_or in Hin. destruct Hin as [Hin|Hin].
    - exact (Hroot y Hy Hin).
    - change (lit ".{" ++ Spec.joined "," opts ++ lit "}")
        with ("."%char :: "{"%char :: (Spec.joined "," opts ++ lit "}"))
        in Hin.
      destruct Hin as [<-|[<-|Hin]].
      + destruct Hy as [Hy|[Hy|[]]]; discriminate Hy.
      + destruct Hy as [Hy|[Hy|[]]]; discriminate Hy.
      + apply (Hfree y); [|exact Hin].
        destruct Hy as [<-|[<-|[]]]; simpl; tauto. }
  assert (Hstrip :
            strip_call (root ++ lit ".{" ++ Spec.joined "," opts ++ lit "}")
            = root ++ lit ".{" ++ Spec.joined "," opts ++ lit "}").
  { rewrite strip_call_argument. unfold Spec.call_argument.
    rewrite after_last_absent by (apply Hwhole; simpl; tauto).
    apply before_char_id. apply Hwhole. simpl. tauto. }
  unfold piece_output, split_options, PyStr.rsplit1. rewrite Hstrip.
  rewrite rfind_split_options by (apply Hfree; simpl; tauto).
  destruct (Spec.joined "," opts ++ lit "}") as [|c o] eqn:E.
  - apply app_eq_nil in E. destruct E as [_ E]. discriminate E.
  - rewrite <- E.
    rewrite <- (split_options_block opts Hne) at 2.
    + rewrite map_map. apply map_ext. intros x.
      unfold construct_target. change (lit "}") with ["}"%char].
      rewrite split1_char_first. reflexivity.
    + apply Forall_impl with (2 := Hopts). intros p Hp.
      split; apply Hp; simpl; tauto.
Qed.

Lemma options_block_expands_witness :
  piece_output "tendrl.n1.cpu.{percent-user,percent-system,idle}" =
  [lit "tendrl.n1.cpu.percent-user"; lit "tendrl.n1.cpu.percent-system";
   lit "tendrl.n1.cpu.idle"].
Proof.
  refine (options_block_expands "tendrl.n1.cpu"
            [lit "percent-user"; lit "percent-system"; lit "idle"] _ _ _).
  - intros c Hc Hin. simpl in Hc, Hin.
    destruct Hc as [<-|[<-|[]]]; intuition discriminate.
  - discriminate.
  - repeat constructor; intros c Hc Hin; simpl in Hc, Hin;
      destruct Hc as [<-|[<-|[<-|[<-|[<-|[]]]]]]; intuition discriminate.
Defined.

End Pieces.



(** * Failures of [get_panel_chart_targets] *)

Module TargetErrors.
Import GrafanaApi.

Lemma mapM_stops {A B} (f : A -> result B) (pre post : list A) (x : A)
  (out : list B) (e : exn) :
  mapM f pre = Ok out -> f x = Err e ->
  mapM f (pre ++ x :: post) = Err e.
Proof.
  revert out. induction pre as [|y pre IH]; intros out Hpre Hx.
  - cbn [app mapM]. rewrite Hx. reflexivity.
  - cbn [app mapM] in *.
    destruct (f y) as [z|e']; cbn [rbind] in *; [|discriminate].
    destruct (mapM f pre) as [r|e']; cbn [rbind] in *; [|discriminate].
    rewrite (IH r eq_refl Hx). reflexivity.
Qed.

(** The first loop on targets that all have a template when visible. *)
Lemma visible_values (ts : list (list (atom * value))) :
  (forall d, In d ts -> Spec.hidden d = false ->
             exists x, Spec.template_of d = Some x) ->
  comprehension shown template (map VDict ts) =
  Ok (map Spec.template_value
          (filter (fun d => negb (Spec.hidden d)) ts)).
Proof.
  induction ts as [|d ts IH]; intros H; [reflexivity|].
  cbn [map comprehension filter]. rewrite ChartTargets.shown_dict.
  cbn [rbind].
  rewrite IH by (intros d' Hd'; apply H; right; exact Hd').
  destruct (Spec.hidden d) eqn:E; cbn [negb]; [reflexivity|].
  destruct (H d (or_introl eq_refl) E) as [x Hx].
  assert (Hval : Spec.template_value d = x)
    by (unfold Spec.template_value; rewrite Hx; reflexivity).
  rewrite ChartTargets.template_dict, Hx. cbn [rbind map].
  rewrite Hval. reflexivity.
Qed.

Lemma substitute_other (tok new : str) (x : value) :
  Spec.not_str x ->
  substitute tok new x = Err (Spec.template_error x) \/
  substitute tok new x = Ok x.
Proof.
  intros Hx. unfold substitute.
  destruct x as [[| | |s]|l|d]; cbn [Py.contains rbind Spec.template_error];
    try (left; reflexivity).
  - exfalso. apply (Hx s). reflexivity.
  - destruct (existsb (Py.eq (VStr tok)) l); [left|right]; reflexivity.
  - destruct (existsb (fun kv => Py.atom_eqb (AStr tok) (fst kv)) d);
      [left|right]; reflexivity.
Qed.

(** The body of the second loop on a template that is not a string. *)
Lemma target_queries_other (h c v : str) (x : value) :
  Spec.not_str x ->
  target_queries h c v x = Err (Spec.template_error x).
Proof.
  intros Hx.
  assert (Hstr : Py.str_method x = Err AttributeError).
  { destruct x as [[| | |s]|l|d]; try reflexivity.
    exfalso. apply (Hx s). reflexivity. }
  destruct x as [a|l|d].
  - destruct a as [| | |s]; try reflexivity.
    exfalso. apply (Hx s). reflexivity.
  - unfold target_queries.
    destruct (substitute_other "$cluster_id" c _ Hx) as [-> | ->];
      [reflexivity|]. cbn [rbind].
    destruct (substitute_other "$volume_name" v _ Hx) as [-> | ->];
      [reflexivity|]. cbn [rbind].
    destruct (substitute_other "$host_name" (PyStr.replace "." "_" h) _ Hx)
      as [-> | ->]; [reflexivity|]. cbn [rbind].
    rewrite Hstr. reflexivity.
  - unfold target_queries.
    destruct (substitute_other "$cluster_id" c _ Hx) as [-> | ->];
      [reflexivity|]. cbn [rbind].
    destruct (substitute_other "$volume_name" v _ Hx) as [-> | ->];
      [reflexivity|]. cbn [rbind].
    destruct (substitute_other "$host_name" (PyStr.replace "." "_" h) _ Hx)
      as [-> | ->]; [reflexivity|]. cbn [rbind].
    rewrite Hstr. reflexivity.
Qed.

(** A panel without ["title"] makes [get_panel_chart_targets] fail with a
    [KeyError] once all its targets have been processed: the title is
    read for the log message. *)
Theorem panel_without_title_raises
  (panel : value) (ts : list (list (atom * value))) (h c v : str) :
  Py.getitem panel "targets" = Ok (VList (map VDict ts)) ->
  (forall d, In d ts -> Spec.hidden d = false ->
             exists s, Spec.template_of d = Some (VStr s)) ->
  Spec.field "title" panel = None ->
  chart_targets panel h c v = Err (KeyError (AStr "title")).
Proof.
  intros Hts Hwf Hno. unfold chart_targets.
  rewrite Hts. cbn [rbind Py.iter].
  rewrite (ChartTargets.visible_templates ts Hwf). cbn [rbind].
  rewrite <- (map_map Spec.template_str (fun s => VStr s)).
  rewrite ChartTargets.queries_of_templates. cbn [rbind].
  destruct panel as [a|l|d]; try discriminate.
  cbn [Spec.field] in Hno. cbn [Py.getitem]. rewrite Hno. reflexivity.
Qed.

(** A visible target with neither a truthy ["targetFull"] nor a
    ["target"] ends [get_panel_chart_targets] with a [KeyError] for
    ["target"]. *)
Theorem target_without_template_raises
  (panel : value) (pre post : list (list (atom * value)))
  (d : list (atom * value)) (h c v : str) :
  Py.getitem panel "targets" = Ok (VList (map VDict (pre ++ d :: post))) ->
  (forall d', In d' pre -> Spec.hidden d' = false ->
              exists s, Spec.template_of d' = Some (VStr s)) ->
  Spec.hidden d = false ->
  Spec.template_of d = None ->
  chart_targets panel h c v = Err (KeyError (AStr "target")).
Proof.
  intros Hts Hpre Hd Hno. unfold chart_targets.
  rewrite Hts. cbn [rbind Py.iter].
  rewrite map_app. cbn [map].
  rewrite (Slugs.comprehension_stops shown template _ _ (VDict d) _
             (KeyError (AStr "target"))
             (ChartTargets.visible_templates pre Hpre)).
  - reflexivity.
  - right. rewrite ChartTargets.shown_dict, Hd.
    rewrite ChartTargets.template_dict, Hno. split; reflexivity.
Qed.

(** A visible target whose template is not a string ends
    [get_panel_chart_targets], once the first loop has collected all
    templates, with a [TypeError] when the template is [null], a boolean
    or a number and with an [AttributeError] when it is a list or an
    object. *)
Theorem template_not_string_raises
  (panel : value) (pre post : list (list (atom * value)))
  (d : list (atom * value)) (x : value) (h c v : str) :
  Py.getitem panel "targets" = Ok (VList (map VDict (pre ++ d :: post))) ->
  (forall d', In d' pre -> Spec.hidden d' = false ->
              exists s, Spec.template_of d' = Some (VStr s)) ->
  (forall d', In d' post -> Spec.hidden d' = false ->
              exists y, Spec.template_of d' = Some y) ->
  Spec.hidden d = false ->
  Spec.template_of d = Some x ->
  Spec.not_str x ->
  chart_targets panel h c v = Err (Spec.template_error x).
Proof.
  intros Hts Hpre Hpost Hd Hx Hnot. unfold chart_targets.
  rewrite Hts. cbn [rbind Py.iter].
  rewrite visible_values.
  - cbn [rbind]. rewrite filter_app. cbn [filter]. rewrite Hd.
    cbn [negb]. rewrite map_app. cbn [map].
    assert (Hval : Spec.template_value d = x)
      by (unfold Spec.template_value; rewrite Hx; reflexivity).
    rewrite Hval.
    assert (Hstr :
              map Spec.template_value
                (filter (fun d => negb (Spec.hidden d)) pre) =
              map (fun s => VStr s)
                (map Spec.template_str
                   (filter (fun d => negb (Spec.hidden d)) pre))).
    { rewrite map_map. apply map_ext_in. intros d' Hin.
      apply filter_In in Hin. destruct Hin as [Hin Hv].
      apply negb_true_iff in Hv. destruct (Hpre d' Hin Hv) as [s Hs].
      unfold Spec.template_value, Spec.template_str. rewrite Hs.
      reflexivity. }
    rewrite Hstr.
    rewrite (mapM_stops _ _ _ x _ _
               (ChartTargets.queries_of_templates h c v _)
               (target_queries_other h c v x Hnot)).
    reflexivity.
  - intros d' Hin Hv. apply in_app_or in Hin.
    destruct Hin as [Hin|[<-|Hin]].
    + destruct (Hpre d' Hin Hv) as [s Hs]. exists (VStr s). exact Hs.
    + exists x. exact Hx.
    + exact (Hpost d' Hin Hv).
Qed.

Lemma panel_without_title_raises_witness :
  chart_targets
    (VDict [(AStr "targets",
             VList [VDict [(AStr "target", VStr "tendrl.cpu")]])])
    "" "" "" =
  Err (KeyError (AStr "title")).
Proof.
  refine (panel_without_title_raises
            (VDict [(AStr "targets",
                     VList [VDict [(AStr "target", VStr "tendrl.cpu")]])])
            [[(AStr "target", VStr "tendrl.cpu")]] "" "" ""
            eq_refl _ eq_refl).
  intros d [<-|[]] _. eexists. reflexivity.
Defined.

Lemma target_without_template_raises_witness :
  chart_targets
    (VDict [(AStr "title", VStr "CPU");
            (AStr "targets",
             VList [VDict [(AStr "target", VStr "tendrl.cpu")];
                    VDict [(AStr "refId", VStr "B")]])])
    "" "" "" =
  Err (KeyError (AStr "target")).
Proof.
  refine (target_without_template_raises
            (VDict [(AStr "title", VStr "CPU");
                    (AStr "targets",
                     VList [VDict [(AStr "target", VStr "tendrl.cpu")];
                            VDict [(AStr "refId", VStr "B")]])])
            [[(AStr "target", VStr "tendrl.cpu")]] []
            [(AStr "refId", VStr "B")] "" "" ""
            eq_refl _ eq_refl eq_refl).
  intros d [<-|[]] _. eexists. reflexivity.
Defined.

Lemma template_not_string_raises_witness :
  chart_targets
    (VDict [(AStr "title", VStr "CPU");
            (AStr "targets",
             VList [VDict [(AStr "target", VStr "tendrl.cpu")];
                    VDict [(AStr "target", VList [VStr "tendrl.mem"])]])])
    "" "" "" =
  Err AttributeError.
Proof.
  refine (template_not_string_raises
            (VDict [(AStr "title", VStr "CPU");
                    (AStr "targets",
                     VList [VDict [(AStr "target", VStr "tendrl.cpu")];
                            VDict [(AStr "target",
                                    VList [VStr "tendrl.mem"])]])])
            [[(AStr "target", VStr "tendrl.cpu")]] []
            [(AStr "target", VList [VStr "tendrl.mem"])]
            (VList [VStr "tendrl.mem"]) "" "" ""
            eq_refl _ _ eq_refl eq_refl _).
  - intros d [<-|[]] _. eexists. reflexivity.
  - intros d [].
  - intros s. discriminate.
Defined.

End TargetErrors.

(** * Further properties of [compare_structure] *)

Module StructureFacts.
Import GrafanaApi.

Lemma foldM_app {A S} (body : A -> S -> result S) (l1 l2 : list A) (st : S) :
  foldM body (l1 ++ l2) st =
  (st' <- foldM body l1 st ;; foldM body l2 st')%result.
Proof.
  revert st. induction l1 as [|x l1 IH]; intros st; [reflexivity|].
  cbn [app foldM]. destruct (body x st) as [st'|e]; cbn [rbind];
    [apply IH|reflexivity].
Qed.

(** The loop over the panels of a row stops at a panel without
    ["title"]. *)
Lemma add_row_untitled_panel (row p : value) (t : str)
  (pre post : list value) (sg : list (atom * value)) :
  Spec.field "title" row = Some (VStr t) ->
  Spec.panels_of row = Some (pre ++ p :: post) ->
  Forall (fun q => exists qt, Spec.field "title" q = Some qt) pre ->
  Spec.is_dict p ->
  Spec.field "title" p = None ->
  add_row row sg = Err (KeyError (AStr "title")).
Proof.
  intros Ht Hpanels Hpre [d ->] Hno. unfold add_row.
  rewrite (Fetch.field_getitem _ _ _ Ht). cbn [rbind Py.hashable].
  unfold Spec.panels_of in Hpanels.
  destruct (Spec.field "panels" row) as [[a|l|r]|] eqn:E; try discriminate.
  injection Hpanels as ->.
  rewrite (Fetch.field_getitem _ _ _ E). cbn [rbind Py.iter].
  rewrite foldM_app.
  rewrite (Structure.add_panels_titled row t pre Ht Hpre [] sg).
  cbn [rbind foldM]. unfold add_panel.
  cbn [Spec.field] in Hno. cbn [Py.getitem]. rewrite Hno. reflexivity.
Qed.

Lemma atom_eqb_str_eq (s : str) (k : atom) :
  Py.atom_eqb (AStr s) k = true <-> k = AStr s.
Proof.
  split.
  - destruct k as [| | |u]; try discriminate. cbn [Py.atom_eqb].
    intros H. apply Structure.str_eqb_true in H. subst u. reflexivity.
  - intros ->. apply Structure.atom_eqb_refl.
Qed.

(** The keys after [d[k] = v] for a string [k]: the key is added at the
    end when it is new. *)
Lemma keys_setitem (s : str) (v : value) (sg : list (atom * value)) :
  map fst (Py.setitem (AStr s) v sg) =
  if existsb (Py.atom_eqb (AStr s)) (map fst sg) then map fst sg
  else map fst sg ++ [AStr s].
Proof.
  induction sg as [|[k v'] sg IH]; [reflexivity|].
  cbn [Py.setitem map fst existsb].
  destruct (Py.atom_eqb (AStr s) k); cbn [orb map fst]; [reflexivity|].
  rewrite IH.
  destruct (existsb (Py.atom_eqb (AStr s)) (map fst sg)); reflexivity.
Qed.

Lemma existsb_key (s : str) (ks : list atom) :
  existsb (Py.atom_eqb (AStr s)) ks = true <-> In (AStr s) ks.
Proof.
  rewrite existsb_exists. split.
  - intros [k [Hin Hk]]. apply atom_eqb_str_eq in Hk. subst k. exact Hin.
  - intros Hin. exists (AStr s). split; [exact Hin|].
    apply Structure.atom_eqb_refl.
Qed.

Lemma NoDup_snoc {A} (l : list A) (x : A) :
  NoDup l -> ~ In x l -> NoDup (l ++ [x]).
Proof.
  induction 1 as [|y l Hy _ IH]; intros Hx; simpl.
  - constructor; [intros []|constructor].
  - constructor.
    + intros Hin. apply in_app_or in Hin.
      destruct Hin as [Hin|[<-|[]]]; [exact (Hy Hin)|].
      apply Hx. left. reflexivity.
    + apply IH. intros Hin. apply Hx. right. exact Hin.
Qed.

Lemma keys_setitem_NoDup (s : str) (v : value) (sg : list (atom * value)) :
  NoDup (map fst sg) -> NoDup (map fst (Py.setitem (AStr s) v sg)).
Proof.
  intros H. rewrite keys_setitem.
  destruct (existsb (Py.atom_eqb (AStr s)) (map fst sg)) eqn:E;
    [exact H|].
  apply NoDup_snoc; [exact H|].
  intros Hin. apply existsb_key in Hin. congruence.
Qed.

Lemma keys_setitem_In (s : str) (v : value) (sg : list (atom * value))
  (k : atom) :
  In k (map fst (Py.setitem (AStr s) v sg)) <->
  k = AStr s \/ In k (map fst sg).
Proof.
  rewrite keys_setitem.
  destruct (existsb (Py.atom_eqb (AStr s)) (map fst sg)) eqn:E.
  - apply existsb_key in E. split; [tauto|].
    intros [->|H]; assumption.
  - rewrite in_app_iff. simpl. split.
    + intros [H|[H|[]]]; [right; exact H|left; symmetry; exact H].
    + intros [H|H]; [right; left; symmetry; exact H|left; exact H].
Qed.

Lemma expected_keys (rows : list value) :
  forall sg,
    NoDup (map fst sg) ->
    NoDup (map fst
             (fold_left
                (fun sg row =>
                   Py.setitem (AStr (Spec.row_title row))
                     (VList (Spec.row_names row)) sg)
                rows sg)) /\
    (forall k,
       In k
          (map fst
             (fold_left
                (fun sg row =>
                   Py.setitem (AStr (Spec.row_title row))
                     (VList (Spec.row_names row)) sg)
                rows sg)) <->
       In k (map fst sg) \/
       exists row, In row rows /\ k = AStr (Spec.row_title row)).
Proof.
  induction rows as [|row rows IH]; intros sg Hsg.
  - cbn [fold_left]. split; [exact Hsg|].
    intros k. split; [tauto|]. intros [H|[row [[] _]]]. exact H.
  - cbn [fold_left].
    destruct (IH _ (keys_setitem_NoDup (Spec.row_title row)
                      (VList (Spec.row_names row)) sg Hsg)) as [Hnd Hin].
    split; [exact Hnd|].
    intros k. rewrite Hin, keys_setitem_In. split.
    + intros [[H|H]|[r [Hr Hk]]].
      * right. exists row. split; [left; reflexivity|exact H].
      * left. exact H.
      * right. exists r. split; [right; exact Hr|exact Hk].
    + intros [H|[r [[<-|Hr] Hk]]].
      * left. right. exact H.
      * left. left. exact Hk.
      * right. exists r. split; [exact Hr|exact Hk].
Qed.

(** On a dashboard of titled rows, the mapping the loops of
    [compare_structure] build has one entry per distinct row title: its
    keys are exactly the titles of the rows, each one once, and nothing
    else is a key. *)
Theorem structure_keys_are_row_titles (rows : list value)
  (sg : list (atom * value)) :
  Forall Spec.titled_row rows ->
  structure_grafana rows = Ok sg ->
  NoDup (map fst sg) /\
  (forall k,
     In k (map fst sg) <->
     exists row, In row rows /\ k = AStr (Spec.row_title row)).
Proof.
  intros Hrows H.
  rewrite (Structure.structure_grafana_expected rows Hrows) in H.
  injection H as <-. unfold Spec.expected.
  destruct (expected_keys rows [] (NoDup_nil _)) as [Hnd Hin].
  split; [exact Hnd|].
  intros k. rewrite Hin. split; [|tauto]. intros [[]|H]. exact H.
Qed.

Lemma structure_keys_are_row_titles_witness :
  NoDup [AStr "Row"] /\
  (forall k,
     In k [AStr "Row"] <->
     exists row,
       In row [VDict [(AStr "title", VStr "Row");
                      (AStr "panels",
                       VList [VDict [(AStr "title", VStr "Bricks")]])];
               VDict [(AStr "title", VStr "Row");
                      (AStr "panels", VList [])]] /\
       k = AStr (Spec.row_title row)).
Proof.
  refine (structure_keys_are_row_titles
            [VDict [(AStr "title", VStr "Row");
                    (AStr "panels",
                     VList [VDict [(AStr "title", VStr "Bricks")]])];
             VDict [(AStr "title", VStr "Row");
                    (AStr "panels", VList [])]]
            [(AStr "Row", VList [])] _ eq_refl).
  repeat constructor; try (eexists; reflexivity);
    eexists; (split; [reflexivity|]);
    repeat constructor; eexists; reflexivity.
Defined.

Section Methods.

Variable server : str.
Variable http : str -> result response.
Variable check_response :
  response -> list (bool * str) -> result unit * list (bool * str).

(** A panel without ["title"] ends [compare_structure] with a
    [KeyError]: only the check on the emptiness of the layout has been
    recorded and the equality check is not reached. *)
Theorem untitled_panel_ends_compare (structure : value) (slug t : str)
  (st st1 : session) (layout row p : value)
  (rows_before rows_after pre post : list value) :
  get_dashboard server http check_response slug st = (Ok layout, st1) ->
  Spec.rows_of layout = Some (rows_before ++ row :: rows_after) ->
  Forall Spec.titled_row rows_before ->
  Spec.field "title" row = Some (VStr t) ->
  Spec.panels_of row = Some (pre ++ p :: post) ->
  Forall (fun q => exists qt, Spec.field "title" q = Some qt) pre ->
  Spec.is_dict p ->
  Spec.field "title" p = None ->
  compare_structure server http check_response structure slug st =
  (Err (KeyError (AStr "title")),
   {| gets := gets st1;
      checks := checks st1 ++
                [(true, slug ++ lit " dashboard should not be empty")] |}).
Proof.
  intros Hdash Hrows Hbefore Ht Hpanels Hpre Hp Hno.
  destruct (Panel.rows_of_layout _ _ Hrows) as [[n Hlen] Hlr].
  unfold compare_structure, bind. rewrite Hdash.
  unfold lift at 1. rewrite Hlen.
  cbn [Nat.ltb Nat.leb pytest_check gets checks].
  unfold Spec.layout_rows in Hlr. unfold lift at 1.
  destruct (Py.getitem layout "dashboard") as [d|e]; [|discriminate].
  cbn [rbind] in *. rewrite Hlr.
  unfold lift at 1. unfold structure_grafana.
  rewrite foldM_app, (Structure.structure_grafana_from _ Hbefore).
  cbn [rbind foldM].
  rewrite (add_row_untitled_panel row p t pre post _ Ht Hpanels Hpre Hp Hno).
  reflexivity.
Qed.

(** On an empty layout [compare_structure] records the failed check on
    the emptiness and goes on: the call then ends with the error of the
    lookup of ["dashboard"], a [KeyError] on an empty object. *)
Theorem empty_layout_ends_compare (structure : value) (slug : str)
  (st st1 : session) (layout : value) :
  get_dashboard server http check_response slug st = (Ok layout, st1) ->
  Py.len layout = Ok 0 ->
  compare_structure server http check_response structure slug st =
  (Err match layout with
       | VDict _ => KeyError (AStr "dashboard")
       | _ => TypeError
       end,
   {| gets := gets st1;
      checks := checks st1 ++
                [(false, slug ++ lit " dashboard should not be empty")] |}).
Proof.
  intros Hdash Hlen. unfold compare_structure, bind. rewrite Hdash.
  unfold lift at 1. rewrite Hlen.
  cbn [Nat.ltb Nat.leb pytest_check gets checks]. unfold lift at 1.
  destruct layout as [[| | |s]|l|d]; try discriminate; try reflexivity.
  destruct d; [reflexivity|discriminate].
Qed.

(** A structure whose dictionary keys cannot be sorted, such as a string
    next to a number, ends [compare_structure] with the [TypeError] of
    [json.dumps(structure, sort_keys=True)]: the equality check is not
    reached. *)
Theorem unsortable_structure_ends_compare (structure : value) (slug : str)
  (st st1 : session) (layout : value) (rows : list value) :
  get_dashboard server http check_response slug st = (Ok layout, st1) ->
  Spec.is_json layout = true ->
  Spec.rows_of layout = Some rows ->
  Forall Spec.titled_row rows ->
  Py.dumps_ok structure = false ->
  compare_structure server http check_response structure slug st =
  (Err TypeError,
   {| gets := gets st1;
      checks := checks st1 ++
                [(true, slug ++ lit " dashboard should not be empty")] |}).
Proof.
  intros Hdash Hjson Hrows Htitled Hdumps.
  rewrite (Structure.compare_structure_run server http check_response
             structure _ _ _ _ _ Hdash Hjson Hrows Htitled).
  cbn zeta. rewrite Hdumps. reflexivity.
Qed.

End Methods.

Lemma untitled_panel_ends_compare_witness :
  compare_structure Sample.server (Sample.answering Sample.untitled_layout)
    Sample.check_status (VDict []) "bricks" session0 =
  (Err (KeyError (AStr "title")),
   {| gets := [lit "http://grafana:3000/api/dashboards/db/bricks"];
      checks := [(true, lit "status code should be 200");
                 (true, lit "bricks dashboard should not be empty")] |}).
Proof.
  refine (untitled_panel_ends_compare Sample.server
            (Sample.answering Sample.untitled_layout) Sample.check_status
            (VDict []) "bricks" "Row" session0 _
            Sample.untitled_layout Sample.untitled_row
            (VDict [(AStr "displayName", VStr "Bricks")])
            [] [] [] []
            eq_refl eq_refl (Forall_nil _) eq_refl eq_refl (Forall_nil _)
            _ eq_refl).
  eexists. reflexivity.
Defined.

Lemma empty_layout_ends_compare_witness :
  compare_structure Sample.server (Sample.answering (VDict []))
    Sample.check_status (VDict []) "cluster" session0 =
  (Err (KeyError (AStr "dashboard")),
   {| gets := [lit "http://grafana:3000/api/dashboards/db/cluster"];
      checks := [(true, lit "status code should be 200");
                 (false, lit "cluster dashboard should not be empty")] |}).
Proof.
  exact (empty_layout_ends_compare Sample.server
           (Sample.answering (VDict []))
           Sample.check_status (VDict []) "cluster" session0 _ (VDict [])
           eq_refl eq_refl).
Defined.

Lemma unsortable_structure_ends_compare_witness :
  compare_structure Sample.server Sample.grafana Sample.check_status
    (VDict [(AStr "Header", VList []); (AInt 1, VList [])])
    "cluster" session0 =
  (Err TypeError,
   {| gets := [lit "http://grafana:3000/api/dashboards/db/cluster"];
      checks := [(true, lit "status code should be 200");
                 (true, lit "cluster dashboard should not be empty")] |}).
Proof.
  exact (unsortable_structure_ends_compare Sample.server Sample.grafana
           Sample.check_status
           (VDict [(AStr "Header", VList []); (AInt 1, VList [])])
           "cluster" session0 _ Sample.cluster_layout
           [Sample.header_row; Sample.utilization_row]
           eq_refl eq_refl eq_refl Structure.sample_titled_rows eq_refl).
Defined.

End StructureFacts.

(** * [get_panel] followed by [get_panel_chart_targets] *)

Module Compose.
Import GrafanaApi.

Section Methods.

Variable server : str.
Variable http : str -> result response.
Variable check_response :
  response -> list (bool * str) -> result unit * list (bool * str).

(** The chart targets of a panel obtained from [get_panel]: when its
    targets are objects whose visible ones carry a template string, the
    call returns the queries of the visible targets; the title it reads
    for the log message is there, because [get_panel] selected the panel
    on it. *)
Theorem chart_targets_of_found_panel
  (panel_title row_title dashboard : str) (panel_type : option str)
  (st : session) (p : value) (ts : list (list (atom * value)))
  (h c v : str) :
  fst (get_panel server http check_response
         panel_title row_title dashboard panel_type st) = Ok p ->
  Py.getitem p "targets" = Ok (VList (map VDict ts)) ->
  (forall d, In d ts -> Spec.hidden d = false ->
             exists s, Spec.template_of d = Some (VStr s)) ->
  chart_targets p h c v =
  Ok (map (fun d => Spec.queries h c v (Spec.template_str d))
          (filter (fun d => negb (Spec.hidden d)) ts)).
Proof.
  intros Hp Hts Hwf.
  assert (Htitle : exists t, Py.getitem p "title" = Ok t).
  { revert Hp. unfold get_panel, bind.
    destruct (get_dashboard server http check_response dashboard st)
      as [[layout|e] st1]; [|discriminate].
    unfold lift. cbn [fst]. intros H.
    destruct (Panel.find_panel_ok _ _ _ _ _ H)
      as [rows [row [panels [_ [_ [_ Hf]]]]]].
    assert (Hin : In p (filter (Spec.panel_matches panel_title panel_type)
                           panels)) by (rewrite Hf; left; reflexivity).
    apply filter_In in Hin. destruct Hin as [_ Hm].
    unfold Spec.panel_matches in Hm. apply andb_true_iff in Hm.
    destruct Hm as [Ht _]. unfold Spec.has_title in Ht.
    destruct (Spec.field "title" p) as [t|] eqn:E; [|discriminate].
    exists t. apply (Fetch.field_getitem _ _ _ E). }
  destruct Htitle as [t Ht].
  unfold chart_targets. rewrite Hts. cbn [rbind Py.iter].
  rewrite (ChartTargets.visible_templates ts Hwf). cbn [rbind].
  rewrite <- (map_map Spec.template_str (fun s => VStr s)).
  rewrite ChartTargets.queries_of_templates. cbn [rbind].
  rewrite Ht. cbn [rbind]. rewrite map_map. reflexivity.
Qed.

End Methods.

Lemma chart_targets_of_found_panel_witness :
  chart_targets Sample.cpu_panel "n1.example.com" "c7" "" =
  Ok [[lit "tendrl.n1_example_com.cpu.user";
       lit "tendrl.n1_example_com.cpu.system"];
      [lit "tendrl.c7.cpu"]].
Proof.
  refine (chart_targets_of_found_panel Sample.server
            (Sample.answering
               (VDict [(AStr "dashboard",
                        VDict [(AStr "rows",
                                VList [VDict [(AStr "title", VStr "Host");
                                              (AStr "panels",
                                               VList [Sample.cpu_panel])]])])]))
            Sample.check_status "CPU" "Host" "host" None session0
            Sample.cpu_panel
            [[(AStr "target", VStr "tendrl.$host_name.cpu.{user,system}")];
             [(AStr "target", VStr "tendrl.idle"); (AStr "hide", VBool true)];
             [(AStr "target", VStr "alias(#A, 'a')");
              (AStr "targetFull", VStr "alias(tendrl.$cluster_id.cpu, 'a')");
              (AStr "hide", VBool false)]]
            "n1.example.com" "c7" "" eq_refl eq_refl _).
  intros d [<-|[<-|[<-|[]]]] Hd; vm_compute in Hd; try discriminate;
    eexists; vm_compute; reflexivity.
Defined.

End Compose.

(** * Sample runs *)

Example split_ex :
  PyStr.split ", " "a(b), c, d" = [lit "a(b)"; lit "c"; lit "d"].
Proof. reflexivity. Qed.

Example replace_ex :
  PyStr.replace "$host_name" "h_1" "x.$host_name.y.$host_name" = lit "x.h_1.y.h_1".
Proof. reflexivity. Qed.

Example rsplit1_ex :
  PyStr.rsplit1 "(" "f(g(x" = [lit "f(g"; lit "x"].
Proof. reflexivity. Qed.

Example piece_options_ex :
  GrafanaApi.piece_output "sumSeries(tendrl.n1.cpu.{user,system})" =
  [lit "tendrl.n1.cpu.user"; lit "tendrl.n1.cpu.system"].
Proof. reflexivity. Qed.

Example piece_dropped_ex :
  GrafanaApi.piece_output "'cpu')" = [].
Proof. reflexivity. Qed.

Example get_panel_ex :
  fst (GrafanaApi.get_panel Sample.server Sample.grafana Sample.check_status
         "Health" "Header" "cluster" None session0) =
  Ok (VDict [(AStr "title", VStr "Health"); (AStr "type", VStr "singlestat")]).
Proof. vm_compute. reflexivity. Qed.

Example structure_grafana_ex :
  GrafanaApi.structure_grafana [Sample.header_row; Sample.utilization_row] =
  Ok [(AStr "Header", VList [VStr "Health"; VStr "Uptime"; VStr "Notes"]);
      (AStr "Utilization", VList [VStr "CPU"; VStr "CPU"])].
Proof. vm_compute. reflexivity. Qed.
